(** * Skill-Swap: the swap-request lifecycle and the skill moderation workflow

    A shallow embedding of the route handlers of the Flask application
    (app/routes/swap_request_routes.py, app/routes/skill_routes.py,
    app/routes/admin_routes.py), of the models they act on
    (app/simple_app.py) and of app/utils/validators.py, followed by the
    properties of the two workflows.

    Tables are finite maps from the primary key to the row; a handler is a
    function from the store to the new store and the reply. *)

From Stdlib Require Import String Ascii DecimalString DecimalZ DecimalPos.
From stdpp Require Import gmap list fin_maps sorting.

Local Open Scope Z_scope.

(** ** Python strings

    A [str] is a sequence of Unicode code points; [len] is the number of
    code points. *)

Definition str := list N.

(** A literal of the source, as its code points. *)
Definition py (s : string) : str := N_of_ascii <$> list_ascii_of_string s.

(** [str.isspace] on one code point: the table of CPython's
    [_PyUnicode_IsWhitespace]. *)
Definition isspace (c : N) : bool :=
  ((9 <=? c) && (c <=? 13) || (28 <=? c) && (c <=? 32)
   || (c =? 133) || (c =? 160) || (c =? 5760)
   || (8192 <=? c) && (c <=? 8202)
   || (c =? 8232) || (c =? 8233) || (c =? 8239) || (c =? 8287)
   || (c =? 12288))%N.

Fixpoint lstrip (s : str) : str :=
  match s with
  | [] => []
  | c :: t => if isspace c then lstrip t else s
  end.

Definition rstrip (s : str) : str := rev (lstrip (rev s)).

(** [s.strip()] *)
Definition strip (s : str) : str := rstrip (lstrip s).

(** Truth value of a string: [if s] holds for the non-empty ones. *)
Definition truthy (s : str) : bool :=
  match s with [] => false | _ => true end.

(** app/utils/validators.py, [sanitize_string(value, max_length=None)] on a
    [str] value.  [max_length] is [None] or an integer; [if max_length]
    is false for [None] and for [0]. *)
Definition sanitize_string (value : str) (max_length : option nat) : str :=
  let sanitized := strip value in
  match max_length with
  | Some n =>
      if negb (Nat.eqb n 0) && (n <? length sanitized)%nat
      then take n sanitized
      else sanitized
  | None => sanitized
  end.

(** ** The models (app/simple_app.py)

    One record per table, without the primary key (the key of the map) and
    without the [created_at] and [updated_at] time stamps, which the
    storage layer fills from the wall clock.  A nullable column is an
    [option]. *)

Module User.
(** Of a user the workflows read the key and the ban flag only. *)
Record row := mk { is_banned : bool; ban_reason : option str }.
End User.

Module Skill.
Record row := mk {
  name : str;                       (* String(100), unique *)
  description : option str;
  category : option str;
  status : str;                     (* approved, pending, rejected *)
  rejection_reason : option str;
  created_by : option Z
}.
End Skill.

Module SwapRequest.
Record row := mk {
  requester_id : Z;
  receiver_id : Z;
  skill_offered : str;
  skill_wanted : str;
  message : option str;
  acceptance_message : option str;
  status : str                      (* pending, accepted, rejected, cancelled *)
}.

(** [user_id in [self.requester_id, self.receiver_id]] *)
Definition can_be_updated_by (self : row) (user_id : Z) : bool :=
  (user_id =? requester_id self) || (user_id =? receiver_id self).
End SwapRequest.

Record db := mkdb {
  users : gmap Z User.row;
  skills : gmap Z Skill.row;
  swap_requests : gmap Z SwapRequest.row
}.

Definition empty_db : db := mkdb ∅ ∅ ∅.

Definition set_users (m : gmap Z User.row) (s : db) : db :=
  mkdb m (skills s) (swap_requests s).
Definition set_skills (m : gmap Z Skill.row) (s : db) : db :=
  mkdb (users s) m (swap_requests s).
Definition set_swap_requests (m : gmap Z SwapRequest.row) (s : db) : db :=
  mkdb (users s) (skills s) m.

(** *** Queries *)

(** [Model.query.filter_by(...).first()]: some row that satisfies the
    criteria [p], or [None].  Strings are compared code point by code
    point. *)
Definition query_first {A} (p : A → bool) (m : gmap Z A) : option (Z * A) :=
  List.find (λ kr, p kr.2) (map_to_list m).

(** [Model.query.filter_by(id=k, ...).first()]: the row of key [k], when it
    satisfies the other conditions [p]. *)
Definition lookup_where {A} (p : A → bool) (k : Z) (m : gmap Z A) : option A :=
  match m !! k with
  | Some r => if p r then Some r else None
  | None => None
  end.

(** The key of an inserted row: one more than the largest key of the table. *)
Definition next_id {A} (m : gmap Z A) : Z :=
  1 + foldr Z.max 0 (fst <$> map_to_list m).

Definition str_eqb (a b : str) : bool := bool_decide (a = b).

(** The status literals of the handlers. *)
Definition pending : str := Eval cbv in py "pending".
Definition accepted : str := Eval cbv in py "accepted".
Definition rejected : str := Eval cbv in py "rejected".
Definition cancelled : str := Eval cbv in py "cancelled".
Definition approved : str := Eval cbv in py "approved".

(** ** Request bodies and identities

    The JSON body of a request, field by field; [None] is an absent key.
    A present text field holds a JSON string and [receiverId] a JSON
    integer. *)

Module Body.
Record swap_create := mk_swap_create {
  receiverId : option Z;
  skillOffered : option str;
  skillWanted : option str;
  message : option str
}.
Record swap_update := mk_swap_update {
  status : option str;
  acceptanceMessage : option str
}.
Record skill := mk_skill {
  name : option str;
  description : option str;
  category : option str
}.
Record with_reason := mk_with_reason { reason : option str }.
End Body.

(** [data.get(key, '')] *)
Definition get_str (field : option str) : str := default [] field.

(** What [get_jwt_identity()] returns: the subject of the token as it was
    issued, an integer ([identity=user.id] in app_standalone.py) or a
    string ([identity=str(user.id)] in app/routes/auth_routes.py).  The
    swap-request handlers convert it with [int(...)] and so take a [Z];
    the skill handlers use it as it is. *)
Inductive identity :=
| IdInt (n : Z)
| IdStr (s : str).

(** [created_by != user_id] between the integer column and the identity: a
    [NULL] column or a string identity differs from everything. *)
Definition differs (created_by : option Z) (user_id : identity) : bool :=
  match created_by, user_id with
  | Some n, IdInt m => negb (n =? m)
  | _, _ => true
  end.

(** [str(n)] for an integer: its decimal digits, after [-] when it is
    negative. *)
Definition str_of_int (n : Z) : str :=
  py (NilZero.string_of_int (Z.to_int n)).

(** The identity of the tokens of the application:
    [create_access_token(identity=str(user.id))] in
    app/routes/auth_routes.py, at registration and at login. *)
Definition issued (user_id : Z) : identity := IdStr (str_of_int user_id).

(** ** Replies

    One constructor per reply text of the handlers; the text is in the
    comment. *)

Inductive text :=
| Receiver_required          (* Receiver ID is required *)
| Skills_required            (* Both offered and wanted skills are required *)
| Receiver_unavailable       (* Receiver not found or unavailable *)
| Self_request               (* You cannot send a swap request to yourself *)
| Duplicate_pending          (* You already have a pending request for these skills with this user *)
| Request_sent               (* Swap request sent successfully *)
| Request_not_found          (* Swap request not found *)
| Not_authorized_update      (* You are not authorized to update this request *)
| Invalid_status             (* Invalid status. Must be one of: accepted, rejected, cancelled *)
| Only_receiver              (* Only the receiver can accept or reject requests *)
| Only_requester             (* Only the requester can cancel requests *)
| Cannot_update (current : str) (* Cannot update request with status: {status} *)
| Request_updated (new_status : str) (* Request {new_status} successfully *)
| Only_requester_delete      (* Only the requester can delete the request *)
| Request_deleted            (* Swap request deleted successfully *)
| Skill_name_required        (* Skill name is required *)
| Skill_exists               (* Skill already exists *)
| Skill_created              (* Skill created successfully and is pending approval *)
| Skill_not_found            (* Skill not found *)
| Only_creator_update        (* You can only update skills you created *)
| Skill_updated              (* Skill updated successfully and is pending approval *)
| Only_creator_delete        (* You can only delete skills you created *)
| Skill_deleted              (* Skill deleted successfully *)
| Skill_approved             (* Skill approved successfully *)
| Rejection_reason_required  (* Rejection reason is required *)
| Skill_rejected             (* Skill rejected successfully *)
| Ban_reason_required        (* Ban reason is required *)
| User_not_found             (* User not found *)
| User_banned                (* User banned successfully *)
| User_unbanned              (* User unbanned successfully *)
| Found                      (* a read: the data alone *)
| Failed.                    (* Failed to ...: {e}, the [except] branch *)

Record reply (A : Type) := mkreply {
  http : Z;
  msg : text;
  payload : option (Z * A)   (* 'data': the row of [to_dict()], with its key *)
}.
Arguments mkreply {A} _ _ _.
Arguments http {A} _.
Arguments msg {A} _.
Arguments payload {A} _.

Definition fail {A} (code : Z) (m : text) : reply A := mkreply code m None.

(** The failure kinds by which the specification names the replies. *)
Inductive failure :=
| NotFound | InvalidArgument | Conflict | Forbidden | InvalidState | Internal.

Definition failure_of {A} (r : reply A) : option failure :=
  match msg r with
  | Receiver_required | Skills_required | Self_request | Invalid_status
  | Skill_name_required | Rejection_reason_required | Ban_reason_required =>
      Some InvalidArgument
  | Receiver_unavailable | Request_not_found | Skill_not_found
  | User_not_found => Some NotFound
  | Duplicate_pending | Skill_exists => Some Conflict
  | Not_authorized_update | Only_receiver | Only_requester
  | Only_requester_delete | Only_creator_update | Only_creator_delete =>
      Some Forbidden
  | Cannot_update _ => Some InvalidState
  | Failed => Some Internal
  | Request_sent | Request_updated _ | Request_deleted | Skill_created
  | Skill_updated | Skill_deleted | Skill_approved | Skill_rejected
  | User_banned | User_unbanned | Found => None
  end.

(** [x in l] for a list of strings; an absent value is in no list. *)
Definition contains (l : list str) (x : option str) : bool :=
  match x with
  | Some v => existsb (str_eqb v) l
  | None => false
  end.

Definition valid_statuses : list str := [accepted; rejected; cancelled].

(** ** The swap-request handlers (app/routes/swap_request_routes.py)

    [user_id] is [int(get_jwt_identity())]. *)

(** The criteria of the look-up for a request that is already there:
    [filter_by(requester_id=..., receiver_id=..., skill_offered=...,
    skill_wanted=..., status='pending')]. *)
Definition pending_between (requester_id receiver_id : Z)
    (skill_offered skill_wanted : str) (r : SwapRequest.row) : bool :=
  (SwapRequest.requester_id r =? requester_id)
  && (SwapRequest.receiver_id r =? receiver_id)
  && str_eqb (SwapRequest.skill_offered r) skill_offered
  && str_eqb (SwapRequest.skill_wanted r) skill_wanted
  && str_eqb (SwapRequest.status r) pending.

Definition create_swap_request (user_id : Z) (data : Body.swap_create) (s : db)
  : db * reply SwapRequest.row :=
  let receiver_id := Body.receiverId data in
  let skill_offered := strip (get_str (Body.skillOffered data)) in
  let skill_wanted := strip (get_str (Body.skillWanted data)) in
  let message := strip (get_str (Body.message data)) in
  match receiver_id with
  | None => (s, fail 400 Receiver_required)
  | Some receiver_id =>
    if receiver_id =? 0 then (s, fail 400 Receiver_required)
    else if negb (truthy skill_offered) || negb (truthy skill_wanted)
    then (s, fail 400 Skills_required)
    else
      (* User.query.filter_by(id=receiver_id, is_banned=False).first() *)
      match lookup_where (λ u, negb (User.is_banned u)) receiver_id (users s) with
      | None => (s, fail 404 Receiver_unavailable)
      | Some _ =>
        if user_id =? receiver_id then (s, fail 400 Self_request)
        else
          let existing_request :=
            query_first
              (pending_between user_id receiver_id skill_offered skill_wanted)
              (swap_requests s) in
          match existing_request with
          | Some _ => (s, fail 400 Duplicate_pending)
          | None =>
            let swap_request :=
              SwapRequest.mk user_id receiver_id
                (sanitize_string skill_offered (Some 100%nat))
                (sanitize_string skill_wanted (Some 100%nat))
                (Some (sanitize_string message (Some 500%nat)))
                None
                pending in
            let request_id := next_id (swap_requests s) in
            (set_swap_requests (<[request_id := swap_request]> (swap_requests s)) s,
             mkreply 201 Request_sent (Some (request_id, swap_request)))
          end
      end
  end.

Definition update_swap_request (user_id request_id : Z)
    (data : Body.swap_update) (s : db) : db * reply SwapRequest.row :=
  match swap_requests s !! request_id with
  | None => (s, fail 404 Request_not_found)
  | Some swap_request =>
    if negb (SwapRequest.can_be_updated_by swap_request user_id)
    then (s, fail 403 Not_authorized_update)
    else
      let acceptance_message := strip (get_str (Body.acceptanceMessage data)) in
      match Body.status data with
      | None => (s, fail 400 Invalid_status)
      | Some new_status =>
        if negb (contains valid_statuses (Some new_status))
        then (s, fail 400 Invalid_status)
        else if contains [accepted; rejected] (Some new_status)
                && negb (user_id =? SwapRequest.receiver_id swap_request)
        then (s, fail 403 Only_receiver)
        else if str_eqb new_status cancelled
                && negb (user_id =? SwapRequest.requester_id swap_request)
        then (s, fail 403 Only_requester)
        else if negb (str_eqb (SwapRequest.status swap_request) pending)
        then (s, fail 400 (Cannot_update (SwapRequest.status swap_request)))
        else
          let updated :=
            SwapRequest.mk
              (SwapRequest.requester_id swap_request)
              (SwapRequest.receiver_id swap_request)
              (SwapRequest.skill_offered swap_request)
              (SwapRequest.skill_wanted swap_request)
              (SwapRequest.message swap_request)
              (if contains [accepted; rejected] (Some new_status)
                  && truthy acceptance_message
               then Some (sanitize_string acceptance_message (Some 500%nat))
               else SwapRequest.acceptance_message swap_request)
              new_status in
          (set_swap_requests (<[request_id := updated]> (swap_requests s)) s,
           mkreply 200 (Request_updated new_status) (Some (request_id, updated)))
      end
  end.

Definition delete_swap_request (user_id request_id : Z) (s : db)
  : db * reply SwapRequest.row :=
  match swap_requests s !! request_id with
  | None => (s, fail 404 Request_not_found)
  | Some swap_request =>
    if negb (user_id =? SwapRequest.requester_id swap_request)
    then (s, fail 403 Only_requester_delete)
    else (set_swap_requests (delete request_id (swap_requests s)) s,
          mkreply 200 Request_deleted None)
  end.

(** ** The account handlers

    The account handlers (app/routes/auth_routes.py, user_routes.py) write
    the [users] table only.  A successful registration adds a user who is
    not banned; the ban and its lifting are in app/routes/admin_routes.py. *)

Definition register (s : db) : db :=
  set_users (<[next_id (users s) := User.mk false None]> (users s)) s.

Definition ban_user (user_id : Z) (data : Body.with_reason) (s : db)
  : db * reply User.row :=
  let reason := strip (get_str (Body.reason data)) in
  if negb (truthy reason) then (s, fail 400 Ban_reason_required)
  else
    match users s !! user_id with
    | None => (s, fail 404 User_not_found)
    | Some _ =>
      let user := User.mk true (Some (sanitize_string reason (Some 500%nat))) in
      (set_users (<[user_id := user]> (users s)) s,
       mkreply 200 User_banned (Some (user_id, user)))
    end.

Definition unban_user (user_id : Z) (s : db) : db * reply User.row :=
  match users s !! user_id with
  | None => (s, fail 404 User_not_found)
  | Some _ =>
    let user := User.mk false None in
    (set_users (<[user_id := user]> (users s)) s,
     mkreply 200 User_unbanned (Some (user_id, user)))
  end.

(** ** The skill handlers (app/routes/skill_routes.py, admin_routes.py) *)

(** The column [name] of [skills] is declared [unique=True]: a commit that
    would leave two rows of one name raises, the handler's [except] branch
    rolls back and replies 500.  [name_taken n m]: some row of [m] is
    named [n]. *)
Definition name_taken (n : str) (m : gmap Z Skill.row) : bool :=
  match query_first (λ r, str_eqb (Skill.name r) n) m with
  | Some _ => true
  | None => false
  end.

Section Handlers.

(** The value the store keeps in the integer column [created_by] when it
    is given an identity; [create_skill] writes it and is otherwise
    independent of it. *)
Variable integer_column : identity → option Z.

Definition create_skill (user_id : identity) (data : Body.skill) (s : db)
  : db * reply Skill.row :=
  let name := strip (get_str (Body.name data)) in
  let description := strip (get_str (Body.description data)) in
  let category := strip (get_str (Body.category data)) in
  if negb (truthy name) then (s, fail 400 Skill_name_required)
  else
    let existing_skill := query_first (λ r, str_eqb (Skill.name r) name) (skills s) in
    match existing_skill with
    | Some _ => (s, fail 400 Skill_exists)
    | None =>
      let skill :=
        Skill.mk
          (sanitize_string name (Some 100%nat))
          (Some (sanitize_string description (Some 500%nat)))
          (Some (sanitize_string category (Some 50%nat)))
          pending
          None
          (integer_column user_id) in
      (* db.session.commit() *)
      if name_taken (Skill.name skill) (skills s) then (s, fail 500 Failed)
      else
        let skill_id := next_id (skills s) in
        (set_skills (<[skill_id := skill]> (skills s)) s,
         mkreply 201 Skill_created (Some (skill_id, skill)))
    end.

(** The read of one skill; it takes no identity. *)
Definition get_skill_by_id (skill_id : Z) (s : db) : reply Skill.row :=
  match lookup_where (λ r, str_eqb (Skill.status r) approved) skill_id (skills s) with
  | None => fail 404 Skill_not_found
  | Some skill => mkreply 200 Found (Some (skill_id, skill))
  end.

Definition update_skill (user_id : identity) (skill_id : Z) (data : Body.skill)
    (s : db) : db * reply Skill.row :=
  match skills s !! skill_id with
  | None => (s, fail 404 Skill_not_found)
  | Some skill =>
    if differs (Skill.created_by skill) user_id
    then (s, fail 403 Only_creator_update)
    else
      let name :=
        match Body.name data with
        | Some n => if truthy (strip n) then sanitize_string n (Some 100%nat)
                    else Skill.name skill
        | None => Skill.name skill
        end in
      let description :=
        match Body.description data with
        | Some d => Some (sanitize_string d (Some 500%nat))
        | None => Skill.description skill
        end in
      let category :=
        match Body.category data with
        | Some c => Some (sanitize_string c (Some 50%nat))
        | None => Skill.category skill
        end in
      let updated :=
        Skill.mk name description category pending None (Skill.created_by skill) in
      (* db.session.commit(): the name is written when it changed *)
      if negb (str_eqb name (Skill.name skill)) && name_taken name (skills s)
      then (s, fail 500 Failed)
      else (set_skills (<[skill_id := updated]> (skills s)) s,
            mkreply 200 Skill_updated (Some (skill_id, updated)))
  end.

Definition delete_skill (user_id : identity) (skill_id : Z) (s : db)
  : db * reply Skill.row :=
  match skills s !! skill_id with
  | None => (s, fail 404 Skill_not_found)
  | Some skill =>
    if differs (Skill.created_by skill) user_id
    then (s, fail 403 Only_creator_delete)
    else (set_skills (delete skill_id (skills s)) s,
          mkreply 200 Skill_deleted None)
  end.

Definition approve_skill (skill_id : Z) (s : db) : db * reply Skill.row :=
  match skills s !! skill_id with
  | None => (s, fail 404 Skill_not_found)
  | Some skill =>
    let updated :=
      Skill.mk (Skill.name skill) (Skill.description skill) (Skill.category skill)
        approved None (Skill.created_by skill) in
    (set_skills (<[skill_id := updated]> (skills s)) s,
     mkreply 200 Skill_approved (Some (skill_id, updated)))
  end.

Definition reject_skill (skill_id : Z) (data : Body.with_reason) (s : db)
  : db * reply Skill.row :=
  let reason := strip (get_str (Body.reason data)) in
  if negb (truthy reason) then (s, fail 400 Rejection_reason_required)
  else
    match skills s !! skill_id with
    | None => (s, fail 404 Skill_not_found)
    | Some skill =>
      let updated :=
        Skill.mk (Skill.name skill) (Skill.description skill) (Skill.category skill)
          rejected (Some (sanitize_string reason (Some 500%nat)))
          (Skill.created_by skill) in
      (set_skills (<[skill_id := updated]> (skills s)) s,
       mkreply 200 Skill_rejected (Some (skill_id, updated)))
    end.

(** ** Sequences of operations

    The requests that write the store, and their effect one after the
    other. *)

Inductive op :=
| Register
| BanUser (user_id : Z) (data : Body.with_reason)
| UnbanUser (user_id : Z)
| CreateSwapRequest (user_id : Z) (data : Body.swap_create)
| UpdateSwapRequest (user_id request_id : Z) (data : Body.swap_update)
| DeleteSwapRequest (user_id request_id : Z)
| CreateSkill (user_id : identity) (data : Body.skill)
| UpdateSkill (user_id : identity) (skill_id : Z) (data : Body.skill)
| DeleteSkill (user_id : identity) (skill_id : Z)
| ApproveSkill (skill_id : Z)
| RejectSkill (skill_id : Z) (data : Body.with_reason).

Definition exec (s : db) (o : op) : db :=
  match o with
  | Register => register s
  | BanUser u d => (ban_user u d s).1
  | UnbanUser u => (unban_user u s).1
  | CreateSwapRequest u d => (create_swap_request u d s).1
  | UpdateSwapRequest u k d => (update_swap_request u k d s).1
  | DeleteSwapRequest u k => (delete_swap_request u k s).1
  | CreateSkill u d => (create_skill u d s).1
  | UpdateSkill u k d => (update_skill u k d s).1
  | DeleteSkill u k => (delete_skill u k s).1
  | ApproveSkill k => (approve_skill k s).1
  | RejectSkill k d => (reject_skill k d s).1
  end.

Definition run (s : db) (ops : list op) : db := foldl exec s ops.

End Handlers.

(** ** Predicates of the properties *)

(** One step in the life of the status of a swap request: it stays, or it
    leaves pending for one of the three final values. *)
Definition legal (a b : str) : Prop :=
  b = a ∨ (a = pending ∧ (b = accepted ∨ b = rejected ∨ b = cancelled)).

Definition known_status (a : str) : Prop :=
  a = pending ∨ a = accepted ∨ a = rejected ∨ a = cancelled.

(** Every status in the table of requests is one of the four. *)
Definition known_statuses (s : db) : Prop :=
  ∀ k r, swap_requests s !! k = Some r → known_status (SwapRequest.status r).

(** The request of key [k] is in the table after each operation of the
    sequence: no operation deletes it. *)
Fixpoint kept (ic : identity → option Z) (k : Z) (s : db) (ops : list op)
  : Prop :=
  match ops with
  | [] => True
  | o :: ops' =>
      is_Some (swap_requests (exec ic s o) !! k) ∧ kept ic k (exec ic s o) ops'
  end.

Definition same_tuple (a b : SwapRequest.row) : Prop :=
  SwapRequest.requester_id a = SwapRequest.requester_id b
  ∧ SwapRequest.receiver_id a = SwapRequest.receiver_id b
  ∧ SwapRequest.skill_offered a = SwapRequest.skill_offered b
  ∧ SwapRequest.skill_wanted a = SwapRequest.skill_wanted b.

(** At most one pending request per requester, receiver and pair of
    skills. *)
Definition pending_unique (s : db) : Prop :=
  ∀ k1 k2 r1 r2,
    swap_requests s !! k1 = Some r1 → swap_requests s !! k2 = Some r2 →
    SwapRequest.status r1 = pending → SwapRequest.status r2 = pending →
    same_tuple r1 r2 → k1 = k2.

(** A request to create whose trimmed skills fit the columns. *)
Definition within_cap (o : op) : Prop :=
  match o with
  | CreateSwapRequest _ data =>
      (length (strip (get_str (Body.skillOffered data))) ≤ 100)%nat
      ∧ (length (strip (get_str (Body.skillWanted data))) ≤ 100)%nat
  | _ => True
  end.

(** No two skills have one name. *)
Definition names_unique (s : db) : Prop :=
  ∀ k1 k2 r1 r2,
    skills s !! k1 = Some r1 → skills s !! k2 = Some r2 →
    Skill.name r1 = Skill.name r2 → k1 = k2.

(** A reason is kept on rejected skills only. *)
Definition reason_only_rejected (s : db) : Prop :=
  ∀ k r, skills s !! k = Some r →
    Skill.status r ≠ rejected → Skill.rejection_reason r = None.

(** ** Example stores

    Three registered users; user 1 asks user 2 for Guitar against Python,
    and user 2 accepts. *)

Definition as_integer (i : identity) : option Z :=
  match i with IdInt n => Some n | IdStr _ => None end.

Definition ask : Body.swap_create :=
  Body.mk_swap_create (Some 2) (Some (py "Python")) (Some (py "Guitar"))
    (Some (py " hello ")).

Definition asked : db :=
  run as_integer empty_db [Register; Register; Register; CreateSwapRequest 1 ask].

Definition accept : Body.swap_update :=
  Body.mk_swap_update (Some accepted) (Some (py "Sure, let's do it")).

Definition settled : db := exec as_integer asked (UpdateSwapRequest 2 1 accept).

Definition asked_row : SwapRequest.row :=
  SwapRequest.mk 1 2 (py "Python") (py "Guitar") (Some (py "hello")) None pending.

Definition settled_row : SwapRequest.row :=
  SwapRequest.mk 1 2 (py "Python") (py "Guitar") (Some (py "hello"))
    (Some (py "Sure, let's do it")) accepted.

Definition cancel : Body.swap_update := Body.mk_swap_update (Some cancelled) None.
Definition reject : Body.swap_update := Body.mk_swap_update (Some rejected) None.

(** The same request with an offered skill of 101 letters, sent twice. *)

Definition long_name : str := repeat 97%N 101.

Definition long_ask : Body.swap_create :=
  Body.mk_swap_create (Some 2) (Some long_name) (Some (py "Guitar")) None.

Definition sent_once : db * reply SwapRequest.row :=
  create_swap_request 1 long_ask (register (register empty_db)).

Definition sent_twice : db * reply SwapRequest.row :=
  create_swap_request 1 long_ask sent_once.1.

(** A skill name of 101 letters, proposed twice. *)

Definition long_skill : Body.skill := Body.mk_skill (Some long_name) None None.

Definition proposed_once : db * reply Skill.row :=
  create_skill as_integer (IdInt 1) long_skill (register empty_db).

Definition proposed_twice : db * reply Skill.row :=
  create_skill as_integer (IdInt 1) long_skill proposed_once.1.

(** A rejected skill, and an edit of its description. *)

Definition origami : Skill.row :=
  Skill.mk (py "Origami") (Some []) (Some []) rejected (Some (py "too niche"))
    (Some 3).

Definition origami_store : db := set_skills {[ 1 := origami ]} empty_db.

Definition new_description : Body.skill :=
  Body.mk_skill None (Some (py "  Paper folding ")) None.

(** The same skill through the handlers, with the identity the
    application issues to user 3.  The integer column keeps the integer
    it is given, and for a decimal text the integer it denotes. *)

Definition int_of_str (s : str) : option Z :=
  if forallb (λ c, c <? 256)%N s
  then Z.of_int
         <$> NilZero.int_of_string (string_of_list_ascii (ascii_of_N <$> s))
  else None.

Definition integer_affinity (i : identity) : option Z :=
  match i with
  | IdInt n => Some n
  | IdStr s => int_of_str s
  end.

Definition origami_proposal : Body.skill :=
  Body.mk_skill (Some (py "Origami")) None None.

Definition too_niche : Body.with_reason :=
  Body.mk_with_reason (Some (py "too niche")).

Definition origami_proposed : db * reply Skill.row :=
  create_skill integer_affinity (issued 3) origami_proposal
    (register (register (register empty_db))).

Definition origami_turned_down : db :=
  (reject_skill 1 too_niche origami_proposed.1).1.

(** * The other handlers *)

(** ** Reads of the swap requests (app/routes/swap_request_routes.py) *)

(** [Model.query.filter_by(...).all()]: the rows that satisfy the
    criteria, under their keys.  The order of the listing (by
    [created_at]) is left out with the time stamps. *)
Definition query_all {A} (p : A → bool) (m : gmap Z A) : gmap Z A :=
  filter (λ kr, p kr.2 = true) m.

(** [Model.query.filter_by(...).count()] *)
Definition query_count {A} (p : A → bool) (m : gmap Z A) : nat :=
  size (query_all p m).

(** [get_swap_request]: the code of the reply and its data.  404 is
    'Swap request not found', 403 'You are not authorized to view this
    request'. *)
Definition get_swap_request (user_id request_id : Z) (s : db)
  : Z * option (Z * SwapRequest.row) :=
  match swap_requests s !! request_id with
  | None => (404, None)
  | Some swap_request =>
    (* user_id not in [swap_request.requester_id, swap_request.receiver_id] *)
    if negb ((user_id =? SwapRequest.requester_id swap_request)
             || (user_id =? SwapRequest.receiver_id swap_request))
    then (403, None)
    else (200, Some (request_id, swap_request))
  end.

(** [if status: query = query.filter_by(status=status)] for the query
    argument [status], absent or a string. *)
Definition status_filter (status : option str) (r : SwapRequest.row) : bool :=
  match status with
  | Some st => if truthy st then str_eqb (SwapRequest.status r) st else true
  | None => true
  end.

Definition get_my_requests (user_id : Z) (status : option str) (s : db)
  : gmap Z SwapRequest.row :=
  query_all
    (λ r, (SwapRequest.requester_id r =? user_id) && status_filter status r)
    (swap_requests s).

Definition get_received_requests (user_id : Z) (status : option str) (s : db)
  : gmap Z SwapRequest.row :=
  query_all
    (λ r, (SwapRequest.receiver_id r =? user_id) && status_filter status r)
    (swap_requests s).

(** ** Reads of the skills (app/routes/skill_routes.py, admin_routes.py) *)

Definition get_pending_skills (s : db) : gmap Z Skill.row :=
  query_all (λ r, str_eqb (Skill.status r) pending) (skills s).

(** The order of [sorted] on strings: by code points, a prefix first. *)
Fixpoint str_leb (a b : str) : bool :=
  match a, b with
  | [], _ => true
  | _ :: _, [] => false
  | x :: a', y :: b' =>
      if (x <? y)%N then true
      else if (x =? y)%N then str_leb a' b'
      else false
  end.

Definition str_le (a b : str) : Prop := str_leb a b = true.

Global Instance str_le_dec a b : Decision (str_le a b).
Proof. unfold str_le. apply _. Defined.

(** [get_categories]: the distinct categories of the approved skills
    that are neither [NULL] nor empty, sorted. *)
Definition get_categories (s : db) : list str :=
  let categories :=
    remove_dups
      (omap (λ kr, Skill.category kr.2)
         (map_to_list
            (query_all
               (λ r, str_eqb (Skill.status r) approved
                     && match Skill.category r with
                        | Some c => negb (str_eqb c [])
                        | None => false
                        end)
               (skills s)))) in
  merge_sort str_le (List.filter truthy categories).

(** ** The statistics (app/routes/admin_routes.py) *)

Record stats := mkstats {
  total_users : nat;
  active_users : nat;
  banned_users : nat;
  total_skills : nat;
  approved_skills : nat;
  pending_skills : nat;
  rejected_skills : nat;
  total_requests : nat;
  pending_requests : nat;
  accepted_requests : nat;
  rejected_requests : nat;
  cancelled_requests : nat
}.

Definition get_platform_stats (s : db) : stats :=
  mkstats
    (size (users s))
    (query_count (λ u, negb (User.is_banned u)) (users s))
    (query_count (λ u, User.is_banned u) (users s))
    (size (skills s))
    (query_count (λ r, str_eqb (Skill.status r) approved) (skills s))
    (query_count (λ r, str_eqb (Skill.status r) pending) (skills s))
    (query_count (λ r, str_eqb (Skill.status r) rejected) (skills s))
    (size (swap_requests s))
    (query_count (λ r, str_eqb (SwapRequest.status r) pending) (swap_requests s))
    (query_count (λ r, str_eqb (SwapRequest.status r) accepted) (swap_requests s))
    (query_count (λ r, str_eqb (SwapRequest.status r) rejected) (swap_requests s))
    (query_count (λ r, str_eqb (SwapRequest.status r) cancelled) (swap_requests s)).

(** ** The validators (app/utils/validators.py) *)

Definition is_alpha (c : N) : bool :=
  ((65 <=? c) && (c <=? 90) || (97 <=? c) && (c <=? 122))%N.

Definition is_digit (c : N) : bool := ((48 <=? c) && (c <=? 57))%N.

(** The class [[a-zA-Z0-9._%+-]]. *)
Definition is_local (c : N) : bool :=
  (is_alpha c || is_digit c
   || (c =? 46) || (c =? 95) || (c =? 37) || (c =? 43) || (c =? 45))%N.

(** The class [[a-zA-Z0-9.-]]. *)
Definition is_domain (c : N) : bool :=
  (is_alpha c || is_digit c || (c =? 46) || (c =? 45))%N.

(** The strings of the pattern
    [^[a-zA-Z0-9._%+-]+@[a-zA-Z0-9.-]+\.[a-zA-Z]{2,}$]: a local part, [@]
    (64), a domain, a dot (46) and two letters or more; [$] is the end of
    the string or the place before a newline (10) that ends it. *)
Definition email_pattern (email : str) : Prop :=
  ∃ local domain tld tail,
    email = local ++ 64%N :: domain ++ 46%N :: tld ++ tail
    ∧ local ≠ [] ∧ Forall (λ c, is_local c = true) local
    ∧ domain ≠ [] ∧ Forall (λ c, is_domain c = true) domain
    ∧ (2 ≤ length tld)%nat ∧ Forall (λ c, is_alpha c = true) tld
    ∧ (tail = [] ∨ tail = [10%N]).

(** The longest prefix of [s] in the class [p], and what follows it. *)
Fixpoint span (p : N → bool) (s : str) : str * str :=
  match s with
  | [] => ([], [])
  | c :: t => if p c then (c :: (span p t).1, (span p t).2) else ([], s)
  end.

(** [s] without the newline that ends it, if one does. *)
Definition chomp (s : str) : str :=
  match rev s with
  | c :: h => if (c =? 10)%N then rev h else s
  | [] => s
  end.

(** [re.match(email_pattern, email) is not None], as a search for the one
    way the pattern can match: the local part is all that precedes the
    first character outside its class, which must be [@]; the letters
    after the last dot are the longest run of letters at the end. *)
Definition validate_email (email : str) : bool :=
  let '(local, rest) := span is_local email in
  match rest with
  | c :: host =>
    if (c =? 64)%N then
      let '(tld, before) := span is_alpha (rev (chomp host)) in
      match before with
      | d :: domain =>
          (d =? 46)%N && truthy local && truthy domain
          && forallb is_domain domain && (2 <=? length tld)%nat
      | [] => false
      end
    else false
  | [] => false
  end.

(** [len(password) >= 6] *)
Definition validate_password (password : str) : bool :=
  (6 <=? length password)%nat.

(** ** Predicates of the further properties *)

(** What every stored swap request satisfies. *)
Definition request_ok (r : SwapRequest.row) : Prop :=
  SwapRequest.requester_id r ≠ SwapRequest.receiver_id r
  ∧ SwapRequest.receiver_id r ≠ 0
  ∧ SwapRequest.skill_offered r ≠ []
  ∧ (length (SwapRequest.skill_offered r) ≤ 100)%nat
  ∧ lstrip (SwapRequest.skill_offered r) = SwapRequest.skill_offered r
  ∧ SwapRequest.skill_wanted r ≠ []
  ∧ (length (SwapRequest.skill_wanted r) ≤ 100)%nat
  ∧ lstrip (SwapRequest.skill_wanted r) = SwapRequest.skill_wanted r
  ∧ (∃ m, SwapRequest.message r = Some m ∧ (length m ≤ 500)%nat)
  ∧ match SwapRequest.acceptance_message r with
    | None => True
    | Some a =>
        a ≠ [] ∧ (length a ≤ 500)%nat
        ∧ (SwapRequest.status r = accepted ∨ SwapRequest.status r = rejected)
    end.

(** What every stored skill satisfies. *)
Definition skill_ok (r : Skill.row) : Prop :=
  Skill.name r ≠ []
  ∧ (length (Skill.name r) ≤ 100)%nat
  ∧ lstrip (Skill.name r) = Skill.name r
  ∧ (∃ d, Skill.description r = Some d ∧ (length d ≤ 500)%nat)
  ∧ (∃ c, Skill.category r = Some c ∧ (length c ≤ 50)%nat)
  ∧ (Skill.status r = pending ∨ Skill.status r = approved
     ∨ Skill.status r = rejected)
  ∧ match Skill.rejection_reason r with
    | None => Skill.status r ≠ rejected
    | Some why => Skill.status r = rejected ∧ why ≠ [] ∧ (length why ≤ 500)%nat
    end.

Definition requests_ok (s : db) : Prop :=
  ∀ k r, swap_requests s !! k = Some r → request_ok r.

Definition skills_ok (s : db) : Prop :=
  ∀ k r, skills s !! k = Some r → skill_ok r.

(** ** Further examples *)

Definition spam : Body.with_reason := Body.mk_with_reason (Some (py "spam")).

(** Origami is proposed by user 3 and rejected; Chess is proposed and
    approved. *)
Definition moderated : db :=
  run as_integer empty_db
    [Register; Register; Register;
     CreateSkill (IdInt 3) (Body.mk_skill (Some (py " Origami ")) None (Some (py "Crafts")));
     RejectSkill 1 (Body.mk_with_reason (Some (py "too niche")));
     CreateSkill (IdInt 2) (Body.mk_skill (Some (py "Chess")) None (Some (py "Games")));
     ApproveSkill 2].

Definition origami_rejected : Skill.row :=
  Skill.mk (py "Origami") (Some []) (Some (py "Crafts")) rejected
    (Some (py "too niche")) (Some 3).

Definition chess_approved : Skill.row :=
  Skill.mk (py "Chess") (Some []) (Some (py "Games")) approved None (Some 2).

(** * Lemmas *)

Arguments contains : simpl never.
Arguments str_eqb : simpl never.
Arguments strip : simpl never.
Arguments sanitize_string : simpl never.
Arguments query_first : simpl never.
Arguments next_id : simpl never.

(** ** Strings *)

Section Strings.

Implicit Types (s t : str) (c : N).

Lemma lstrip_snoc s c : isspace c = false → lstrip (s ++ [c]) = lstrip s ++ [c].
Proof.
  intros Hc. induction s as [|a s IH]; simpl.
  - by rewrite Hc.
  - by destruct (isspace a).
Qed.

Lemma lstrip_idemp s : lstrip (lstrip s) = lstrip s.
Proof.
  induction s as [|a s IH]; [done|]. simpl.
  destruct (isspace a) eqn:Ha; [done|]. simpl. by rewrite Ha.
Qed.

Lemma lstrip_head s :
  lstrip s = [] ∨ ∃ c t, lstrip s = c :: t ∧ isspace c = false.
Proof.
  induction s as [|a s IH]; [by left|]. simpl.
  destruct (isspace a) eqn:Ha; [done|]. right. by exists a, s.
Qed.

Lemma rstrip_cons c t : isspace c = false → rstrip (c :: t) = c :: rstrip t.
Proof.
  intros Hc. unfold rstrip. simpl.
  by rewrite lstrip_snoc, rev_app_distr.
Qed.

Lemma rstrip_idemp s : rstrip (rstrip s) = rstrip s.
Proof. unfold rstrip. by rewrite rev_involutive, lstrip_idemp. Qed.

(** Trimming what is trimmed changes nothing. *)
Lemma strip_idemp s : strip (strip s) = strip s.
Proof.
  unfold strip. destruct (lstrip_head s) as [->|(c & t & -> & Hc)]; [done|].
  rewrite rstrip_cons by done. simpl. rewrite Hc.
  by rewrite rstrip_cons, rstrip_idemp.
Qed.

(** With a cap, [sanitize_string] is the first [n] code points of the
    trimmed value. *)
Lemma sanitize_string_take s (n : nat) :
  n ≠ 0%nat → sanitize_string s (Some n) = take n (strip s).
Proof.
  intros Hn. unfold sanitize_string.
  destruct (Nat.eqb_spec n 0); [done|]. simpl.
  destruct (Nat.ltb_spec n (length (strip s))); [done|].
  by rewrite take_ge.
Qed.

Lemma sanitize_string_strip s (n : nat) :
  n ≠ 0%nat → sanitize_string (strip s) (Some n) = take n (strip s).
Proof. intros. by rewrite sanitize_string_take, strip_idemp. Qed.


Lemma truthy_false s : truthy s = false ↔ s = [].
Proof. by destruct s. Qed.

Lemma truthy_true s : truthy s = true ↔ s ≠ [].
Proof. by destruct s. Qed.

Lemma str_eqb_eq s t : str_eqb s t = true ↔ s = t.
Proof. unfold str_eqb. apply bool_decide_eq_true. Qed.

Lemma str_eqb_neq s t : str_eqb s t = false ↔ s ≠ t.
Proof. unfold str_eqb. apply bool_decide_eq_false. Qed.

Lemma contains_valid_statuses x :
  contains valid_statuses (Some x) = true ↔
  x = accepted ∨ x = rejected ∨ x = cancelled.
Proof.
  unfold contains, valid_statuses. cbn [existsb].
  rewrite !orb_true_iff, !str_eqb_eq. intuition discriminate.
Qed.

Lemma contains_accept_reject x :
  contains [accepted; rejected] (Some x) = true ↔ x = accepted ∨ x = rejected.
Proof.
  unfold contains. cbn [existsb]. rewrite !orb_true_iff, !str_eqb_eq.
  intuition discriminate.
Qed.

End Strings.

(** ** Tables *)

Section Tables.

Context {A : Type}.
Implicit Types (m : gmap Z A) (p : A → bool).

Lemma query_first_Some p m k r :
  query_first p m = Some (k, r) → m !! k = Some r ∧ p r = true.
Proof.
  unfold query_first. intros H. apply find_some in H as [Hin Hp].
  split; [|done]. apply elem_of_map_to_list. by apply list_elem_of_In.
Qed.

Lemma query_first_None p m :
  query_first p m = None ↔ ∀ k r, m !! k = Some r → p r = false.
Proof.
  unfold query_first. split.
  - intros H k r Hk.
    apply (find_none _ _ H (k, r)).
    apply list_elem_of_In. by apply elem_of_map_to_list.
  - intros H. destruct (find _ _) as [[k r]|] eqn:E; [|done].
    apply find_some in E as [Hin Hp]. simpl in Hp.
    apply list_elem_of_In, elem_of_map_to_list in Hin.
    by rewrite (H k r Hin) in Hp.
Qed.

Lemma foldr_max_bound (l : list Z) k : k ∈ l → k ≤ foldr Z.max 0 l.
Proof.
  induction l as [|a l IH]; [by intros ?%elem_of_nil|].
  intros [->|H]%elem_of_cons; simpl; [lia|]. specialize (IH H). lia.
Qed.

(** The key given to an inserted row is not in the table. *)
Lemma next_id_fresh m : m !! next_id m = None.
Proof.
  destruct (m !! next_id m) as [r|] eqn:E; [|done]. exfalso.
  assert (next_id m ≤ foldr Z.max 0 (fst <$> map_to_list m)) as H.
  { apply foldr_max_bound. apply list_elem_of_fmap.
    exists (next_id m, r). split; [done|]. by apply elem_of_map_to_list. }
  unfold next_id in H at 1. lia.
Qed.

Lemma lookup_where_Some p k m r :
  lookup_where p k m = Some r ↔ m !! k = Some r ∧ p r = true.
Proof.
  unfold lookup_where. destruct (m !! k) as [r0|].
  - destruct (p r0) eqn:E; split.
    + by intros [= ->].
    + by intros [[= ->] _].
    + done.
    + intros [[= ->] H]. congruence.
  - split; [done|]. by intros [? _].
Qed.

End Tables.

(** ** What the handlers do *)

Lemma pending_between_true u v so sw r :
  pending_between u v so sw r = true ↔
  SwapRequest.requester_id r = u ∧ SwapRequest.receiver_id r = v
  ∧ SwapRequest.skill_offered r = so ∧ SwapRequest.skill_wanted r = sw
  ∧ SwapRequest.status r = pending.
Proof.
  unfold pending_between.
  rewrite !andb_true_iff, !Z.eqb_eq, !str_eqb_eq. tauto.
Qed.

(** What [create_swap_request] does: it refuses and leaves the store, or
    it found no pending request between the two users for the trimmed
    skills and inserts one row under a new key. *)
Lemma create_swap_request_inv user_id body s s' out :
  create_swap_request user_id body s = (s', out) →
  let skill_offered := strip (get_str (Body.skillOffered body)) in
  let skill_wanted := strip (get_str (Body.skillWanted body)) in
  let message := strip (get_str (Body.message body)) in
  (s' = s ∧ payload out = None ∧ http out ≠ 201)
  ∨ ∃ receiver_id,
      let row :=
        SwapRequest.mk user_id receiver_id (take 100 skill_offered)
          (take 100 skill_wanted) (Some (take 500 message)) None pending in
      let k := next_id (swap_requests s) in
      Body.receiverId body = Some receiver_id
      ∧ receiver_id ≠ 0 ∧ user_id ≠ receiver_id
      ∧ skill_offered ≠ [] ∧ skill_wanted ≠ []
      ∧ lookup_where (λ u, negb (User.is_banned u)) receiver_id (users s) ≠ None
      ∧ query_first
          (pending_between user_id receiver_id skill_offered skill_wanted)
          (swap_requests s) = None
      ∧ s' = set_swap_requests (<[k := row]> (swap_requests s)) s
      ∧ out = mkreply 201 Request_sent (Some (k, row)).
Proof.
  unfold create_swap_request. cbv zeta.
  destruct (Body.receiverId body) as [rid|]; [|intros [= <- <-]; by left].
  destruct (Z.eqb_spec rid 0); [intros [= <- <-]; by left|].
  destruct (truthy (strip (get_str (Body.skillOffered body)))) eqn:Ho;
    [|intros [= <- <-]; by left].
  destruct (truthy (strip (get_str (Body.skillWanted body)))) eqn:Hw;
    [|intros [= <- <-]; by left].
  cbn [negb orb].
  destruct (lookup_where _ rid (users s)) eqn:Hu; [|intros [= <- <-]; by left].
  destruct (Z.eqb_spec user_id rid); [intros [= <- <-]; by left|].
  destruct (query_first _ (swap_requests s)) eqn:Hq; [intros [= <- <-]; by left|].
  intros [= <- <-]. right. exists rid.
  rewrite !sanitize_string_strip by done.
  apply truthy_true in Ho, Hw. rewrite Hu. done.
Qed.

(** What [update_swap_request] does: it refuses and leaves the store, or
    the request was pending, the user is the one the target is reserved
    to, and the row is written back with the new status. *)
Lemma update_swap_request_inv user_id request_id body s s' out :
  update_swap_request user_id request_id body s = (s', out) →
  (s' = s ∧ payload out = None ∧ http out ≠ 200)
  ∨ ∃ r target,
      let note := strip (get_str (Body.acceptanceMessage body)) in
      let updated :=
        SwapRequest.mk (SwapRequest.requester_id r) (SwapRequest.receiver_id r)
          (SwapRequest.skill_offered r) (SwapRequest.skill_wanted r)
          (SwapRequest.message r)
          (if contains [accepted; rejected] (Some target) && truthy note
           then Some (take 500 note)
           else SwapRequest.acceptance_message r)
          target in
      swap_requests s !! request_id = Some r
      ∧ Body.status body = Some target
      ∧ (target = accepted ∨ target = rejected ∨ target = cancelled)
      ∧ SwapRequest.status r = pending
      ∧ s' = set_swap_requests (<[request_id := updated]> (swap_requests s)) s
      ∧ out = mkreply 200 (Request_updated target) (Some (request_id, updated)).
Proof.
  unfold update_swap_request.
  destruct (swap_requests s !! request_id) as [r|]; [|intros [= <- <-]; by left].
  destruct (negb (SwapRequest.can_be_updated_by r user_id));
    [intros [= <- <-]; by left|].
  destruct (Body.status body) as [target|]; [|intros [= <- <-]; by left].
  destruct (negb (contains valid_statuses (Some target))) eqn:Hv;
    [intros [= <- <-]; by left|].
  destruct (contains [accepted; rejected] (Some target)
            && negb (user_id =? SwapRequest.receiver_id r));
    [intros [= <- <-]; by left|].
  destruct (str_eqb target cancelled
            && negb (user_id =? SwapRequest.requester_id r));
    [intros [= <- <-]; by left|].
  destruct (negb (str_eqb (SwapRequest.status r) pending)) eqn:Hp;
    [intros [= <- <-]; by left|].
  intros [= <- <-]. right. exists r, target. cbv zeta.
  apply negb_false_iff, str_eqb_eq in Hp.
  apply negb_false_iff, contains_valid_statuses in Hv.
  rewrite sanitize_string_strip by done. done.
Qed.

(** A request that repeats a pending one, with the trimmed skills as they
    are stored, is refused as a Conflict and the store is left as it was. *)
Lemma create_refuses_duplicate s user_id body receiver_id k r :
  let skill_offered := strip (get_str (Body.skillOffered body)) in
  let skill_wanted := strip (get_str (Body.skillWanted body)) in
  Body.receiverId body = Some receiver_id →
  receiver_id ≠ 0 → user_id ≠ receiver_id →
  skill_offered ≠ [] → skill_wanted ≠ [] →
  lookup_where (λ u, negb (User.is_banned u)) receiver_id (users s) ≠ None →
  swap_requests s !! k = Some r →
  pending_between user_id receiver_id skill_offered skill_wanted r = true →
  create_swap_request user_id body s = (s, fail 400 Duplicate_pending).
Proof.
  cbv zeta. intros Hrid H0 Hself Ho Hw Hu Hk Hr.
  unfold create_swap_request. rewrite Hrid.
  destruct (Z.eqb_spec receiver_id 0); [done|].
  apply truthy_true in Ho as ->, Hw as ->. cbn [negb orb].
  destruct (lookup_where _ receiver_id (users s)); [|done].
  destruct (Z.eqb_spec user_id receiver_id); [done|].
  destruct (query_first _ (swap_requests s)) eqn:Hq; [done|].
  rewrite query_first_None in Hq. by rewrite (Hq _ _ Hk) in Hr.
Qed.

Lemma name_taken_false n (m : gmap Z Skill.row) :
  name_taken n m = false ↔ ∀ k r, m !! k = Some r → Skill.name r ≠ n.
Proof.
  unfold name_taken. destruct (query_first _ m) as [[k r]|] eqn:E.
  - apply query_first_Some in E as [Hk Hn]. apply str_eqb_eq in Hn.
    split; [done|]. intros H. by destruct (H k r Hk).
  - split; [|done]. intros _ k r Hk.
    rewrite query_first_None in E. by apply str_eqb_neq, (E k).
Qed.

Lemma name_taken_true n (m : gmap Z Skill.row) :
  name_taken n m = true ↔ ∃ k r, m !! k = Some r ∧ Skill.name r = n.
Proof.
  unfold name_taken. destruct (query_first _ m) as [[k r]|] eqn:E.
  - apply query_first_Some in E as [Hk Hn]. apply str_eqb_eq in Hn.
    split; [|done]. intros _. by exists k, r.
  - split; [done|]. intros (k & r & Hk & Hn).
    rewrite query_first_None in E. specialize (E k r Hk).
    apply str_eqb_neq in E. done.
Qed.

(** An identity that is a string is the creator of no skill. *)
Lemma differs_string_identity created_by s : differs created_by (IdStr s) = true.
Proof. by destruct created_by. Qed.

(** The column gives back the key of the user whose identity was
    issued. *)
Lemma integer_affinity_issued n : integer_affinity (issued n) = Some n.
Proof.
  unfold integer_affinity, issued, int_of_str, str_of_int, py.
  assert (forallb (λ c, c <? 256)%N
            (N_of_ascii <$> list_ascii_of_string
                              (NilZero.string_of_int (Z.to_int n))) = true) as ->.
  { apply forallb_forall. intros c Hc. apply N.ltb_lt.
    apply List.in_map_iff in Hc as (a & <- & _). apply N_ascii_bounded. }
  rewrite <- list_fmap_compose.
  rewrite (list_fmap_ext (ascii_of_N ∘ N_of_ascii) id)
    by (intros; apply ascii_N_embedding).
  rewrite list_fmap_id, string_of_list_ascii_of_string.
  rewrite NilZero.isi.
  - cbn. by rewrite DecimalZ.of_to.
  - destruct n; [done|intros [= H]; by apply Unsigned.to_uint_nonnil in H|done].
  - destruct n; [done|done|intros [= H]; by apply Unsigned.to_uint_nonnil in H].
Qed.

(** What [create_skill] does: it refuses and leaves the store, or the name
    is not empty, neither the trimmed name nor its first 100 code points
    name a skill, and one pending row is inserted under a new key. *)
Lemma create_skill_inv ic user_id body s s' out :
  create_skill ic user_id body s = (s', out) →
  let name := strip (get_str (Body.name body)) in
  let description := strip (get_str (Body.description body)) in
  let category := strip (get_str (Body.category body)) in
  (s' = s ∧ payload out = None ∧ http out ≠ 201)
  ∨ (let row :=
       Skill.mk (take 100 name) (Some (take 500 description))
         (Some (take 50 category)) pending None (ic user_id) in
     let k := next_id (skills s) in
     name ≠ []
     ∧ name_taken name (skills s) = false
     ∧ name_taken (take 100 name) (skills s) = false
     ∧ s' = set_skills (<[k := row]> (skills s)) s
     ∧ out = mkreply 201 Skill_created (Some (k, row))).
Proof.
  unfold create_skill. cbv zeta.
  destruct (truthy (strip (get_str (Body.name body)))) eqn:Hn;
    [|intros [= <- <-]; by left].
  cbn [negb]. rewrite !sanitize_string_strip by done.
  pose proof (eq_refl (name_taken (strip (get_str (Body.name body))) (skills s)))
    as Ht.
  unfold name_taken at 1 in Ht.
  destruct (query_first _ (skills s)); [intros [= <- <-]; by left|].
  cbn [Skill.name].
  destruct (name_taken (take 100 _) (skills s)) eqn:Hc;
    [intros [= <- <-]; by left|].
  intros [= <- <-]. right. apply truthy_true in Hn. done.
Qed.

(** What a successful [update_skill] does. *)
Lemma update_skill_inv user_id skill_id body s s' out :
  update_skill user_id skill_id body s = (s', out) →
  (s' = s ∧ payload out = None ∧ http out ≠ 200)
  ∨ ∃ skill,
      let name :=
        match Body.name body with
        | Some n => if truthy (strip n) then take 100 (strip n)
                    else Skill.name skill
        | None => Skill.name skill
        end in
      let description :=
        match Body.description body with
        | Some d => Some (take 500 (strip d))
        | None => Skill.description skill
        end in
      let category :=
        match Body.category body with
        | Some c => Some (take 50 (strip c))
        | None => Skill.category skill
        end in
      let updated :=
        Skill.mk name description category pending None (Skill.created_by skill) in
      skills s !! skill_id = Some skill
      ∧ differs (Skill.created_by skill) user_id = false
      ∧ (name = Skill.name skill ∨ name_taken name (skills s) = false)
      ∧ s' = set_skills (<[skill_id := updated]> (skills s)) s
      ∧ out = mkreply 200 Skill_updated (Some (skill_id, updated)).
Proof.
  unfold update_skill.
  destruct (skills s !! skill_id) as [skill|]; [|intros [= <- <-]; by left].
  destruct (differs (Skill.created_by skill) user_id) eqn:Hd;
    [intros [= <- <-]; by left|].
  destruct (Body.name body) as [n|], (Body.description body) as [d|],
    (Body.category body) as [c|];
    cbv zeta; rewrite ?sanitize_string_take by done.
  all: match goal with
       | |- context [str_eqb ?nm (Skill.name ?sk)] =>
           destruct (str_eqb nm (Skill.name sk)) eqn:He; cbn [negb andb];
           [apply str_eqb_eq in He
           |destruct (name_taken nm (skills s)) eqn:Ht;
            [intros [= <- <-]; by left|]]
       end.
  all: intros [= <- <-]; right; exists skill; repeat split; try done.
  all: by (left + right).
Qed.

(** ** Sequences of operations *)

Section Histories.

Variable ic : identity → option Z.

Lemma run_snoc s ops o : run ic s (ops ++ [o]) = exec ic (run ic s ops) o.
Proof. unfold run. by rewrite foldl_app. Qed.

Lemma run_app s ops1 ops2 : run ic s (ops1 ++ ops2) = run ic (run ic s ops1) ops2.
Proof. unfold run. apply foldl_app. Qed.

(** *** The status of a swap request *)

Lemma legal_refl a : legal a a.
Proof. by left. Qed.

Lemma legal_trans a b c : legal a b → legal b c → legal a c.
Proof.
  intros [->|[-> Hb]] [->|[Hp Hc]]; unfold legal; tauto.
Qed.

(** The handlers of the other tables leave the requests alone. *)
Lemma other_tables_keep_requests s o :
  match o with
  | CreateSwapRequest _ _ | UpdateSwapRequest _ _ _ | DeleteSwapRequest _ _ => True
  | _ => swap_requests (exec ic s o) = swap_requests s
  end.
Proof.
  destruct o; try done; cbn [exec];
    unfold register, ban_user, unban_user, create_skill, update_skill,
      delete_skill, approve_skill, reject_skill;
    by repeat case_match.
Qed.

Lemma create_keeps s user_id data k r :
  swap_requests s !! k = Some r →
  swap_requests (create_swap_request user_id data s).1 !! k = Some r.
Proof.
  intros Hk. unfold create_swap_request. repeat case_match; try done.
  cbn. rewrite lookup_insert_ne; [done|].
  intros E. rewrite <- E, next_id_fresh in Hk. done.
Qed.

Lemma create_adds_pending s user_id data k r :
  swap_requests s !! k = None →
  swap_requests (create_swap_request user_id data s).1 !! k = Some r →
  SwapRequest.status r = pending.
Proof.
  intros Hk. unfold create_swap_request.
  repeat case_match; cbn; try (by rewrite Hk).
  destruct (decide (next_id (swap_requests s) = k)) as [<-|Hne].
  - rewrite lookup_insert_eq. by intros [= <-].
  - rewrite lookup_insert_ne by done. by rewrite Hk.
Qed.

Lemma update_step s user_id request_id data k r r' :
  swap_requests s !! k = Some r →
  swap_requests (update_swap_request user_id request_id data s).1 !! k = Some r' →
  legal (SwapRequest.status r) (SwapRequest.status r').
Proof.
  intros Hk. unfold update_swap_request.
  destruct (swap_requests s !! request_id) as [q|] eqn:Hq;
    [|cbn; rewrite Hk; intros [= <-]; apply legal_refl].
  repeat case_match; cbn; try (rewrite Hk; intros [= <-]; apply legal_refl).
  all: destruct (decide (request_id = k)) as [->|Hne];
    [|rewrite lookup_insert_ne by done; rewrite Hk; intros [= <-];
      apply legal_refl].
  all: rewrite lookup_insert_eq; intros [= <-]; cbn.
  all: assert (q = r) as -> by congruence.
  all: right; split;
    [by apply str_eqb_eq, negb_false_iff
    |by apply contains_valid_statuses, negb_false_iff].
Qed.

Lemma update_adds_nothing s user_id request_id data k :
  swap_requests s !! k = None →
  swap_requests (update_swap_request user_id request_id data s).1 !! k = None.
Proof.
  intros Hk. unfold update_swap_request.
  destruct (swap_requests s !! request_id) as [q|] eqn:Hq; [|done].
  repeat case_match; cbn; try done.
  all: rewrite lookup_insert_ne; [done|congruence].
Qed.

Lemma delete_step s user_id request_id k r' :
  swap_requests (delete_swap_request user_id request_id s).1 !! k = Some r' →
  swap_requests s !! k = Some r'.
Proof.
  unfold delete_swap_request. repeat case_match; cbn; try done.
  intros Hd. apply lookup_delete_Some in Hd. tauto.
Qed.

(** Across one operation the status of a request that is still there has
    made a legal step. *)
Lemma exec_step s o k r r' :
  swap_requests s !! k = Some r →
  swap_requests (exec ic s o) !! k = Some r' →
  legal (SwapRequest.status r) (SwapRequest.status r').
Proof.
  intros Hk Hk'. pose proof (other_tables_keep_requests s o) as Ho.
  destruct o;
    try (rewrite Ho, Hk in Hk'; injection Hk' as <-; apply legal_refl);
    cbn [exec] in Hk'.
  - rewrite (create_keeps _ _ _ _ _ Hk) in Hk'. injection Hk' as <-.
    apply legal_refl.
  - eauto using update_step.
  - apply delete_step in Hk'. rewrite Hk in Hk'. injection Hk' as <-.
    apply legal_refl.
Qed.

Lemma run_steps ops : ∀ s k r r',
  swap_requests s !! k = Some r →
  kept ic k s ops →
  swap_requests (run ic s ops) !! k = Some r' →
  legal (SwapRequest.status r) (SwapRequest.status r').
Proof.
  induction ops as [|o ops IH]; intros s k r r' Hk Hkept Hk'.
  - cbn in Hk'. rewrite Hk in Hk'. injection Hk' as <-. apply legal_refl.
  - destruct Hkept as [[q Hq] Hkept]. cbn in Hk'.
    eapply legal_trans; [by eapply exec_step | by eapply IH].
Qed.

Lemma exec_known s o : known_statuses s → known_statuses (exec ic s o).
Proof.
  intros Hs k r' Hk'.
  destruct (swap_requests s !! k) as [r|] eqn:Hk.
  - destruct (exec_step s o k r r' Hk Hk') as [->|[_ H]].
    + by eapply Hs.
    + unfold known_status. tauto.
  - pose proof (other_tables_keep_requests s o) as Ho.
    destruct o; try (by rewrite Ho, Hk in Hk'); cbn [exec] in Hk'.
    + left. by eapply create_adds_pending.
    + by rewrite update_adds_nothing in Hk'.
    + apply delete_step in Hk'. by rewrite Hk in Hk'.
Qed.

Lemma run_known ops : known_statuses (run ic empty_db ops).
Proof.
  induction ops as [|o ops IH] using rev_ind.
  - intros k r Hk. cbn in Hk. by rewrite lookup_empty in Hk.
  - rewrite run_snoc. by apply exec_known.
Qed.

(** *** The guard against a second pending request *)

Lemma create_keeps_unique s user_id data :
  within_cap (CreateSwapRequest user_id data) →
  pending_unique s →
  pending_unique (create_swap_request user_id data s).1.
Proof.
  intros [Ho Hw] Hs.
  destruct (create_swap_request user_id data s) as [s' out] eqn:E.
  apply create_swap_request_inv in E. cbv zeta in E.
  destruct E as [(-> & _)|(rid & _ & _ & _ & _ & _ & _ & Hq & -> & _)]; [done|].
  rewrite !take_ge in * by done.
  pose proof (proj1 (query_first_None _ _) Hq) as Hnone.
  intros k1 k2 r1 r2 H1 H2 Hp1 Hp2 Hsame.
  cbn [swap_requests set_swap_requests fst] in H1, H2.
  destruct (decide (next_id (swap_requests s) = k1)) as [<-|N1];
    destruct (decide (next_id (swap_requests s) = k2)) as [<-|N2];
    try done.
  - rewrite lookup_insert_eq in H1. rewrite lookup_insert_ne in H2 by done.
    injection H1 as <-. destruct Hsame as (? & ? & ? & ?). cbn in *.
    assert (pending_between user_id rid
              (strip (get_str (Body.skillOffered data)))
              (strip (get_str (Body.skillWanted data))) r2 = true) as Ht
      by (by apply pending_between_true).
    by rewrite (Hnone _ _ H2) in Ht.
  - rewrite lookup_insert_eq in H2. rewrite lookup_insert_ne in H1 by done.
    injection H2 as <-. destruct Hsame as (? & ? & ? & ?). cbn in *.
    assert (pending_between user_id rid
              (strip (get_str (Body.skillOffered data)))
              (strip (get_str (Body.skillWanted data))) r1 = true) as Ht
      by (by apply pending_between_true).
    by rewrite (Hnone _ _ H1) in Ht.
  - rewrite lookup_insert_ne in H1, H2 by done. by eapply Hs.
Qed.

Lemma update_keeps_unique s user_id request_id data :
  pending_unique s →
  pending_unique (update_swap_request user_id request_id data s).1.
Proof.
  intros Hs k1 k2 r1 r2 H1 H2 Hp1 Hp2 Hsame.
  assert (∀ k r', swap_requests
                    (update_swap_request user_id request_id data s).1 !! k
                  = Some r' →
                  SwapRequest.status r' = pending →
                  swap_requests s !! k = Some r') as Hold.
  { clear. intros k r'. unfold update_swap_request.
    destruct (swap_requests s !! request_id) as [q|] eqn:Hq; [|done].
    repeat case_match; cbn; try done.
    all: destruct (decide (request_id = k)) as [->|Hne];
      [|by rewrite lookup_insert_ne].
    all: rewrite lookup_insert_eq; intros [= <-]; cbn; intros ->.
    all: match goal with
         | H : negb (contains valid_statuses (Some pending)) = false |- _ =>
             vm_compute in H; discriminate H
         end. }
  eapply Hs; eauto.
Qed.

Lemma delete_keeps_unique s user_id request_id :
  pending_unique s →
  pending_unique (delete_swap_request user_id request_id s).1.
Proof.
  intros Hs k1 k2 r1 r2 H1 H2. apply delete_step in H1, H2. by eapply Hs.
Qed.

(** While the trimmed skills of every request fit the columns, the guard
    keeps the pending requests apart. *)
Lemma guard_within_cap ops :
  Forall within_cap ops → pending_unique (run ic empty_db ops).
Proof.
  induction ops as [|o ops IH] using rev_ind; intros Hops.
  - intros k1 k2 r1 r2 H1. cbn in H1. by rewrite lookup_empty in H1.
  - apply Forall_app in Hops as [Hops Ho]. apply Forall_inv in Ho.
    specialize (IH Hops). rewrite run_snoc.
    pose proof (other_tables_keep_requests (run ic empty_db ops) o) as Hother.
    destruct o;
      try (intros k1 k2 r1 r2; rewrite Hother; apply IH); cbn [exec].
    + by apply create_keeps_unique.
    + by apply update_keeps_unique.
    + by apply delete_keeps_unique.
Qed.

(** *** The names of the skills *)

(** The handlers of the other tables leave the skills alone. *)
Lemma other_tables_keep_skills s o :
  match o with
  | CreateSkill _ _ | UpdateSkill _ _ _ | DeleteSkill _ _
  | ApproveSkill _ | RejectSkill _ _ => True
  | _ => skills (exec ic s o) = skills s
  end.
Proof.
  destruct o; try done; cbn [exec];
    unfold register, ban_user, unban_user, create_swap_request,
      update_swap_request, delete_swap_request;
    by repeat case_match.
Qed.

Lemma insert_keeps_unique s k row :
  names_unique s →
  (∀ k' r', skills s !! k' = Some r' → k' ≠ k → Skill.name r' ≠ Skill.name row) →
  names_unique (set_skills (<[k := row]> (skills s)) s).
Proof.
  intros Hs Hrow k1 k2 r1 r2. cbn [skills set_skills].
  destruct (decide (k = k1)) as [<-|N1], (decide (k = k2)) as [<-|N2];
    try done.
  - rewrite lookup_insert_eq, lookup_insert_ne by done.
    intros [= <-] H2 E. by destruct (Hrow _ _ H2 (not_eq_sym N2)).
  - rewrite lookup_insert_eq, lookup_insert_ne by done.
    intros H1 [= <-] E. by destruct (Hrow _ _ H1 (not_eq_sym N1)).
  - rewrite !lookup_insert_ne by done. apply Hs.
Qed.

Lemma renamed_keeps_unique s k old row :
  names_unique s → skills s !! k = Some old →
  Skill.name row = Skill.name old ∨ name_taken (Skill.name row) (skills s) = false →
  names_unique (set_skills (<[k := row]> (skills s)) s).
Proof.
  intros Hs Hk Hname. apply insert_keeps_unique; [done|].
  intros k' r' Hk' Hne E. destruct Hname as [Hn|Hn].
  - apply Hne. eapply Hs; eauto. congruence.
  - rewrite name_taken_false in Hn. by apply (Hn k' r').
Qed.

Lemma exec_keeps_names s o : names_unique s → names_unique (exec ic s o).
Proof.
  intros Hs. pose proof (other_tables_keep_skills s o) as Hother.
  destruct o;
    try (intros k1 k2 r1 r2; rewrite Hother; apply Hs); cbn [exec].
  - destruct (create_skill ic user_id data s) as [s' out] eqn:E.
    apply create_skill_inv in E. cbv zeta in E.
    destruct E as [(-> & _)|(_ & _ & Hc & -> & _)]; [done|].
    apply insert_keeps_unique; [done|]. cbn [Skill.name].
    intros k' r' Hk' _. rewrite name_taken_false in Hc. by apply (Hc k').
  - destruct (update_skill user_id skill_id data s) as [s' out] eqn:E.
    apply update_skill_inv in E.
    destruct E as [(-> & _)|(skill & Hk & _ & Hn & -> & _)]; [done|].
    by eapply renamed_keeps_unique.
  - unfold delete_skill. repeat case_match; try done.
    intros k1 k2 r1 r2 H1 H2. cbn in H1, H2.
    apply lookup_delete_Some in H1 as [_ H1], H2 as [_ H2]. by eapply Hs.
  - unfold approve_skill. destruct (skills s !! skill_id) eqn:Hk; [|done].
    eapply renamed_keeps_unique; [done..|by left].
  - unfold reject_skill. repeat case_match; try done.
    eapply renamed_keeps_unique; [done..|by left].
Qed.

(** However a store was reached, no two skills have one name, whatever
    their status. *)
Lemma names_always_unique ops : names_unique (run ic empty_db ops).
Proof.
  induction ops as [|o ops IH] using rev_ind.
  - intros k1 k2 r1 r2 H1. cbn in H1. by rewrite lookup_empty in H1.
  - rewrite run_snoc. by apply exec_keeps_names.
Qed.

(** A name that is not empty and fits the column is refused as a Conflict
    when a skill of any status has it, and otherwise is inserted as a
    pending skill. *)
Lemma propose_within_cap user_id body s :
  let name := strip (get_str (Body.name body)) in
  name ≠ [] → (length name ≤ 100)%nat →
  let out := create_skill ic user_id body s in
  if name_taken name (skills s)
  then out = (s, fail 400 Skill_exists)
  else ∃ row,
      out.1 = set_skills (<[next_id (skills s) := row]> (skills s)) s
      ∧ out.2 = mkreply 201 Skill_created (Some (next_id (skills s), row))
      ∧ Skill.name row = name
      ∧ Skill.status row = pending
      ∧ Skill.rejection_reason row = None.
Proof.
  cbv zeta. intros Hn Hlen. unfold create_skill.
  apply truthy_true in Hn as ->. cbn [negb].
  rewrite !sanitize_string_strip by done. cbn [Skill.name].
  rewrite (take_ge (strip (get_str (Body.name body)))) by done.
  unfold name_taken at 1 3.
  destruct (query_first _ (skills s)) eqn:Hq; [done|].
  unfold name_taken. rewrite Hq. eexists. cbn. by repeat split.
Qed.

(** *** The rejection reason *)

Lemma exec_keeps_reason s o :
  reason_only_rejected s → reason_only_rejected (exec ic s o).
Proof.
  intros Hs. pose proof (other_tables_keep_skills s o) as Hother.
  destruct o; try (intros k r; rewrite Hother; apply Hs); cbn [exec];
    intros k r.
  - destruct (create_skill ic user_id data s) as [s' out] eqn:E.
    apply create_skill_inv in E. cbv zeta in E.
    destruct E as [(-> & _)|(_ & _ & _ & -> & _)]; [apply Hs|].
    cbn. destruct (decide (next_id (skills s) = k)) as [<-|N].
    + rewrite lookup_insert_eq. by intros [= <-].
    + rewrite lookup_insert_ne by done. apply Hs.
  - destruct (update_skill user_id skill_id data s) as [s' out] eqn:E.
    apply update_skill_inv in E.
    destruct E as [(-> & _)|(skill & _ & _ & _ & -> & _)]; [apply Hs|].
    cbn. destruct (decide (skill_id = k)) as [<-|N].
    + rewrite lookup_insert_eq. by intros [= <-].
    + rewrite lookup_insert_ne by done. apply Hs.
  - unfold delete_skill. repeat case_match; try apply Hs. cbn.
    intros Hd. apply lookup_delete_Some in Hd as [_ Hd]. by eapply Hs.
  - unfold approve_skill. repeat case_match; try apply Hs. cbn.
    destruct (decide (skill_id = k)) as [<-|N].
    + rewrite lookup_insert_eq. by intros [= <-].
    + rewrite lookup_insert_ne by done. apply Hs.
  - unfold reject_skill. repeat case_match; try apply Hs. cbn.
    destruct (decide (skill_id = k)) as [<-|N].
    + rewrite lookup_insert_eq. by intros [= <-].
    + rewrite lookup_insert_ne by done. apply Hs.
Qed.

(** However a store was reached, a skill that is pending or approved has
    no rejection reason. *)
Lemma reason_always_only_rejected ops :
  reason_only_rejected (run ic empty_db ops).
Proof.
  induction ops as [|o ops IH] using rev_ind.
  - intros k r Hk. cbn in Hk. by rewrite lookup_empty in Hk.
  - rewrite run_snoc. by apply exec_keeps_reason.
Qed.

End Histories.

(** ** The example stores *)

Example asked_lookup : swap_requests asked !! 1 = Some asked_row.
Proof. vm_compute. reflexivity. Qed.

Example settled_lookup : swap_requests settled !! 1 = Some settled_row.
Proof. vm_compute. reflexivity. Qed.

(** * The properties of the specification *)

(** ** The guard against a second pending request *)

(** C1, where the handler departs from it.  User 1 sends user 2 the same
    request twice, the offered skill being 101 letters long.  The look-up
    compares the 101 letters with the 100 that were stored, finds nothing,
    and the second request is accepted as well: the table then holds two
    pending requests of one requester, receiver and pair of skills. *)
Theorem guard_misses_long_skill :
  http sent_once.2 = 201
  ∧ http sent_twice.2 = 201
  ∧ (∃ r, swap_requests sent_twice.1 !! 1 = Some r
          ∧ swap_requests sent_twice.1 !! 2 = Some r
          ∧ SwapRequest.status r = pending)
  ∧ ¬ pending_unique sent_twice.1.
Proof.
  assert (∃ r, swap_requests sent_twice.1 !! 1 = Some r
               ∧ swap_requests sent_twice.1 !! 2 = Some r
               ∧ SwapRequest.status r = pending) as Hdup.
  { eexists. vm_compute. repeat split; reflexivity. }
  repeat split; try (vm_compute; reflexivity); try exact Hdup.
  destruct Hdup as (r & H1 & H2 & Hp).
  intros Hu. specialize (Hu 1 2 r r H1 H2 Hp Hp). discriminate Hu.
  by repeat split.
Qed.

(** ** The status of a swap request *)

(** C2.  In a store reached from the empty one by any operations, the
    status of a swap request is pending, accepted, rejected or cancelled.
    Over any further operations that do not delete the request, its status
    either is what it was or has moved from pending to accepted, rejected
    or cancelled; a status that is not pending is never written again. *)
Theorem status_moves_once (ic : identity → option Z) (history ops : list op)
    (k : Z) (r r' : SwapRequest.row) :
  let s := run ic empty_db history in
  swap_requests s !! k = Some r →
  kept ic k s ops →
  swap_requests (run ic s ops) !! k = Some r' →
  known_status (SwapRequest.status r)
  ∧ known_status (SwapRequest.status r')
  ∧ legal (SwapRequest.status r) (SwapRequest.status r')
  ∧ (SwapRequest.status r ≠ pending →
     SwapRequest.status r' = SwapRequest.status r).
Proof.
  cbv zeta. intros Hk Hkept Hk'.
  pose proof (run_steps ic ops _ _ _ _ Hk Hkept Hk') as Hl.
  repeat split.
  - by eapply run_known.
  - rewrite <- run_app in Hk'. by eapply run_known.
  - exact Hl.
  - intros Hn. destruct Hl as [?|[? _]]; [done|by destruct Hn].
Qed.

Lemma status_moves_once_witness :
  known_status accepted ∧ legal pending accepted.
Proof.
  pose proof (status_moves_once as_integer
                [Register; Register; Register; CreateSwapRequest 1 ask]
                [UpdateSwapRequest 3 1 cancel; UpdateSwapRequest 2 1 accept;
                 UpdateSwapRequest 2 1 reject; UpdateSwapRequest 1 1 cancel;
                 CreateSwapRequest 1 ask]
                1 asked_row settled_row) as H.
  cbv zeta in H.
  destruct H as (_ & Hs & Hl & _).
  - vm_compute. reflexivity.
  - cbn [kept]. repeat split; vm_compute; eexists; reflexivity.
  - vm_compute. reflexivity.
  - split; [exact Hs | exact Hl].
Defined.

(** ** The transition of a swap request *)

(** C3, as the handler has it.  On a request that is no longer pending, a
    transition to accepted, rejected or cancelled leaves the store as it
    was, whoever asks; asked by the user the target is reserved to (the
    receiver for accepted and rejected, the requester for cancelled) it is
    refused as InvalidState (400), and the reply names the current
    status. *)
Theorem settled_request_refused (s : db) (user_id request_id : Z)
    (target : str) (acceptanceMessage : option str) (r : SwapRequest.row) :
  swap_requests s !! request_id = Some r →
  SwapRequest.status r ≠ pending →
  target = accepted ∨ target = rejected ∨ target = cancelled →
  let out :=
    update_swap_request user_id request_id
      (Body.mk_swap_update (Some target) acceptanceMessage) s in
  out.1 = s ∧
  ((target = cancelled → user_id = SwapRequest.requester_id r) →
   (target ≠ cancelled → user_id = SwapRequest.receiver_id r) →
   out.2 = fail 400 (Cannot_update (SwapRequest.status r))
   ∧ failure_of out.2 = Some InvalidState).
Proof.
  intros Hr Hst Ht. cbv zeta. unfold update_swap_request. rewrite Hr. simpl.
  apply str_eqb_neq in Hst. rewrite Hst. cbn [negb].
  split.
  - by repeat case_match.
  - intros Hc Hnc.
    assert (SwapRequest.can_be_updated_by r user_id = true) as ->.
    { unfold SwapRequest.can_be_updated_by. apply orb_true_iff.
      destruct (decide (target = cancelled)) as [e|n];
        [left; rewrite (Hc e) | right; rewrite (Hnc n)]; apply Z.eqb_refl. }
    apply contains_valid_statuses in Ht as Hv. rewrite Hv. cbn [negb].
    destruct Ht as [-> | [-> | ->]].
    + rewrite (Hnc ltac:(done)), Z.eqb_refl. done.
    + rewrite (Hnc ltac:(done)), Z.eqb_refl. done.
    + rewrite (Hc eq_refl), Z.eqb_refl. done.
Qed.

Lemma settled_request_refused_witness :
  let out :=
    update_swap_request 2 1 (Body.mk_swap_update (Some rejected) None) settled in
  out.1 = settled ∧
  out.2 = fail 400 (Cannot_update accepted) ∧ failure_of out.2 = Some InvalidState.
Proof.
  destruct (settled_request_refused settled 2 1 rejected None settled_row) as [H1 H2].
  - vm_compute. reflexivity.
  - discriminate.
  - right. left. reflexivity.
  - split; [exact H1 | apply H2; [discriminate | reflexivity]].
Defined.

(** C3 as it is claimed fails: on the accepted request of the example, the
    requester who asks to reject it is told Forbidden, not InvalidState. *)
Lemma forbidden_before_invalid_state :
  ¬ (∀ (s : db) (user_id request_id : Z) (target : str)
       (acceptanceMessage : option str) (r : SwapRequest.row),
       swap_requests s !! request_id = Some r →
       SwapRequest.status r ≠ pending →
       target = accepted ∨ target = rejected ∨ target = cancelled →
       failure_of
         (update_swap_request user_id request_id
            (Body.mk_swap_update (Some target) acceptanceMessage) s).2
       = Some InvalidState).
Proof.
  intros H.
  specialize (H settled 1 1 rejected None settled_row).
  assert (failure_of
            (update_swap_request 1 1 (Body.mk_swap_update (Some rejected) None)
               settled).2 = Some Forbidden) as E by (vm_compute; reflexivity).
  rewrite H in E; [discriminate E | vm_compute; reflexivity | discriminate | tauto].
Qed.

(** C4.  A transition to accepted or rejected by anyone but the receiver,
    and a transition to cancelled by anyone but the requester, is refused
    as Forbidden (403), whatever the status of the request; the store is
    left as it was. *)
Theorem transition_forbidden (s : db) (user_id request_id : Z)
    (data : Body.swap_update) (r : SwapRequest.row) :
  swap_requests s !! request_id = Some r →
  (contains [accepted; rejected] (Body.status data) = true
     ∧ user_id ≠ SwapRequest.receiver_id r)
  ∨ (Body.status data = Some cancelled
     ∧ user_id ≠ SwapRequest.requester_id r) →
  let out := update_swap_request user_id request_id data s in
  failure_of out.2 = Some Forbidden ∧ http out.2 = 403 ∧ out.1 = s.
Proof.
  intros Hr Hactor. cbv zeta. unfold update_swap_request. rewrite Hr.
  destruct (SwapRequest.can_be_updated_by r user_id); simpl; [|done].
  destruct Hactor as [[Ht Hne]|[Ht Hne]].
  - destruct (Body.status data) as [x|]; [|done].
    assert (contains valid_statuses (Some x) = true) as ->.
    { apply contains_valid_statuses.
      apply contains_accept_reject in Ht. tauto. }
    rewrite Ht. simpl.
    destruct (Z.eqb_spec user_id (SwapRequest.receiver_id r)); done.
  - rewrite Ht. simpl.
    destruct (Z.eqb_spec user_id (SwapRequest.requester_id r)); done.
Qed.

Lemma transition_forbidden_witness :
  let out := update_swap_request 1 1 accept settled in
  failure_of out.2 = Some Forbidden ∧ http out.2 = 403 ∧ out.1 = settled.
Proof.
  apply (transition_forbidden settled 1 1 accept settled_row).
  - vm_compute. reflexivity.
  - left. split; [reflexivity | simpl; lia].
Defined.

(** C9.  A successful transition starts from a pending request and writes
    its status; it writes the acceptance message when the target is
    accepted or rejected and the trimmed message is not empty, and leaves
    it as it was on a cancel or with an empty message.  The requester,
    the receiver, both skills and the first message are as before, and so
    are the other requests, the users and the skills. *)
Theorem transition_frame (s s' : db) (user_id request_id : Z)
    (data : Body.swap_update) (r : SwapRequest.row)
    (out : reply SwapRequest.row) :
  swap_requests s !! request_id = Some r →
  update_swap_request user_id request_id data s = (s', out) →
  http out = 200 →
  let note := strip (get_str (Body.acceptanceMessage data)) in
  ∃ (target : str) (r' : SwapRequest.row),
    Body.status data = Some target
    ∧ SwapRequest.status r = pending
    ∧ swap_requests s' !! request_id = Some r'
    ∧ SwapRequest.status r' = target
    ∧ SwapRequest.requester_id r' = SwapRequest.requester_id r
    ∧ SwapRequest.receiver_id r' = SwapRequest.receiver_id r
    ∧ SwapRequest.skill_offered r' = SwapRequest.skill_offered r
    ∧ SwapRequest.skill_wanted r' = SwapRequest.skill_wanted r
    ∧ SwapRequest.message r' = SwapRequest.message r
    ∧ (target = cancelled ∨ note = [] →
       SwapRequest.acceptance_message r' = SwapRequest.acceptance_message r)
    ∧ (target ≠ cancelled → note ≠ [] →
       SwapRequest.acceptance_message r' = Some (take 500 note))
    ∧ (∀ k, k ≠ request_id → swap_requests s' !! k = swap_requests s !! k)
    ∧ users s' = users s
    ∧ skills s' = skills s.
Proof.
  intros Hr Hup Hok. cbv zeta.
  apply update_swap_request_inv in Hup. cbv zeta in Hup.
  destruct Hup as [(_ & _ & Hne)|(q & target & Hq & Ht & Hv & Hp & -> & _)];
    [done|].
  assert (q = r) as -> by congruence.
  eexists target, _. cbn [swap_requests set_swap_requests users skills].
  rewrite lookup_insert_eq. cbn.
  repeat split; try done.
  - intros [->|Hn].
    + by replace (contains [accepted; rejected] (Some cancelled)) with false
        by (vm_compute; reflexivity).
    + rewrite Hn. cbn [truthy]. by rewrite andb_false_r.
  - intros Hc Hn.
    assert (contains [accepted; rejected] (Some target) = true) as ->.
    { apply contains_accept_reject. tauto. }
    by apply truthy_true in Hn as ->.
  - intros k Hk. by rewrite lookup_insert_ne.
Qed.

Lemma transition_frame_witness :
  ∃ (target : str) (r' : SwapRequest.row),
    Body.status accept = Some target
    ∧ swap_requests settled !! 1 = Some r'
    ∧ SwapRequest.status r' = target
    ∧ SwapRequest.message r' = SwapRequest.message asked_row
    ∧ SwapRequest.acceptance_message r' = Some (py "Sure, let's do it").
Proof.
  destruct (transition_frame asked settled 2 1 accept asked_row
              (update_swap_request 2 1 accept asked).2)
    as (target & r' & Ht & _ & Hr' & Hs & _ & _ & _ & _ & Hm & _ & Ha & _).
  - vm_compute. reflexivity.
  - vm_compute. reflexivity.
  - vm_compute. reflexivity.
  - exists target, r'. repeat split; try assumption.
    rewrite Ha.
    + vm_compute. reflexivity.
    + injection Ht as <-. discriminate.
    + discriminate.
Defined.

(** ** Skills: moderation *)

(** Approving a skill leaves it approved and without a rejection reason.
    An edit that the handler admits and that succeeds leaves the skill
    pending and without a rejection reason, whatever its status and
    reason were.  An edit is admitted when the identity is the integer of
    the column [created_by], as the tokens of app_standalone.py carry it;
    it then succeeds, always when it does not rename the skill, and
    otherwise unless the commit fails on the new name (500, the store as
    it was). *)
Lemma entering_clears_reason (user_id : identity) (skill_id : Z)
    (body : Body.skill) (s : db) (skill : Skill.row) :
  skills s !! skill_id = Some skill →
  (∃ skill',
     skills (approve_skill skill_id s).1 !! skill_id = Some skill'
     ∧ Skill.status skill' = approved
     ∧ Skill.rejection_reason skill' = None)
  ∧ (http (update_skill user_id skill_id body s).2 = 200 →
     ∃ skill',
       skills (update_skill user_id skill_id body s).1 !! skill_id = Some skill'
       ∧ Skill.status skill' = pending
       ∧ Skill.rejection_reason skill' = None)
  ∧ (differs (Skill.created_by skill) user_id = false →
     Body.name body = None →
     http (update_skill user_id skill_id body s).2 = 200)
  ∧ (differs (Skill.created_by skill) user_id = false →
     http (update_skill user_id skill_id body s).2 = 200
     ∨ update_skill user_id skill_id body s = (s, fail 500 Failed)).
Proof.
  intros Hk. repeat split.
  - unfold approve_skill. rewrite Hk. cbn. rewrite lookup_insert_eq. by eexists.
  - intros Hok.
    destruct (update_skill user_id skill_id body s) as [s' out] eqn:E.
    apply update_skill_inv in E.
    destruct E as [(_ & _ & Hne)|(sk & _ & _ & _ & -> & _)]; [done|].
    cbn. rewrite lookup_insert_eq. by eexists.
  - intros Hd Hn. unfold update_skill. rewrite Hk, Hd, Hn.
    cbv zeta. unfold str_eqb. by rewrite bool_decide_eq_true_2.
  - intros Hd. unfold update_skill. rewrite Hk, Hd. cbv zeta.
    case_match; [by right|by left].
Qed.

(** C5, where the handler departs from it.  [update_skill] compares the
    integer column [created_by] with the identity of the token as it is,
    and the application issues that identity as a string, which equals no
    integer.  So the creator of a skill is not recognised: a user who
    proposed a skill under the issued identity and edits it once it is
    rejected is answered 403, and the skill stays rejected with its
    reason; once it is approved the edit is answered 403 as well, and the
    skill stays approved.  No edit returns it to pending. *)
Theorem creator_edit_refused (ic : identity → option Z) (user_id : Z)
    (proposal body : Body.skill) (why : Body.with_reason) (s : db) :
  let proposed := create_skill ic (issued user_id) proposal s in
  let reason := strip (get_str (Body.reason why)) in
  http proposed.2 = 201 →
  reason ≠ [] →
  ∃ k skill,
    payload proposed.2 = Some (k, skill)
    ∧ Skill.created_by skill = ic (issued user_id)
    ∧ (let s' := (reject_skill k why proposed.1).1 in
       update_skill (issued user_id) k body s'
       = (s', fail 403 Only_creator_update)
       ∧ failure_of (update_skill (issued user_id) k body s').2 = Some Forbidden
       ∧ ∃ r, skills s' !! k = Some r
              ∧ Skill.status r = rejected
              ∧ Skill.rejection_reason r = Some (take 500 reason)
              ∧ Skill.created_by r = ic (issued user_id))
    ∧ (let s' := (approve_skill k proposed.1).1 in
       update_skill (issued user_id) k body s'
       = (s', fail 403 Only_creator_update)
       ∧ ∃ r, skills s' !! k = Some r
              ∧ Skill.status r = approved
              ∧ Skill.created_by r = ic (issued user_id)).
Proof.
  cbv zeta. intros Hok Hr.
  destruct (create_skill ic (issued user_id) proposal s) as [s1 out] eqn:E.
  apply create_skill_inv in E. cbv zeta in E.
  destruct E as [(_ & _ & Hne)|(_ & _ & _ & -> & ->)]; [done|].
  eexists _, _. split; [done|]. split; [done|].
  cbn [fst snd payload]. split.
  - unfold reject_skill. apply truthy_true in Hr as Ht. rewrite Ht.
    cbn [negb skills set_skills]. rewrite lookup_insert_eq.
    cbn [fst snd skills set_skills]. unfold update_skill.
    cbn [skills set_skills]. rewrite lookup_insert_eq. unfold issued.
    rewrite differs_string_identity. split; [done|]. split; [done|].
    eexists. split; [done|]. cbn. by rewrite sanitize_string_strip.
  - unfold approve_skill. cbn [skills set_skills]. rewrite lookup_insert_eq.
    cbn [fst snd skills set_skills]. unfold update_skill.
    cbn [skills set_skills]. rewrite lookup_insert_eq. unfold issued.
    rewrite differs_string_identity. split; [done|].
    eexists. split; [done|]. done.
Qed.

Lemma creator_edit_refused_witness :
  skills origami_turned_down !! 1 = Some origami
  ∧ update_skill (issued 3) 1 new_description origami_turned_down
    = (origami_turned_down, fail 403 Only_creator_update).
Proof.
  destruct (creator_edit_refused integer_affinity 3 origami_proposal
              new_description too_niche (register (register (register empty_db))))
    as (k & skill & Hp & _ & (Hu & _ & _) & _).
  - vm_compute. reflexivity.
  - vm_compute. discriminate.
  - assert (k = 1) as -> by (vm_compute in Hp; congruence).
    split; [vm_compute; reflexivity|exact Hu].
Defined.

(** C6.  A rejection whose reason is absent, empty or blank is refused as
    InvalidArgument (400) and the store is left as it was.  With any other
    reason the skill becomes rejected and keeps the first 500 code points
    of the trimmed reason; nothing else of the skill changes. *)
Theorem reject_needs_reason (skill_id : Z) (body : Body.with_reason) (s : db) :
  let reason := strip (get_str (Body.reason body)) in
  let out := reject_skill skill_id body s in
  (reason = [] →
   out = (s, fail 400 Rejection_reason_required)
   ∧ failure_of out.2 = Some InvalidArgument)
  ∧ (reason ≠ [] →
     ∀ skill, skills s !! skill_id = Some skill →
       http out.2 = 200
       ∧ skills out.1 !! skill_id =
           Some (Skill.mk (Skill.name skill) (Skill.description skill)
                   (Skill.category skill) rejected (Some (take 500 reason))
                   (Skill.created_by skill))).
Proof.
  cbv zeta. unfold reject_skill. split.
  - intros ->. done.
  - intros Hr skill Hk. apply truthy_true in Hr as ->. cbn [negb].
    rewrite Hk. cbn. rewrite lookup_insert_eq.
    by rewrite sanitize_string_strip.
Qed.

Lemma reject_needs_reason_witness :
  (reject_skill 1 (Body.mk_with_reason (Some (py "   "))) origami_store
   = (origami_store, fail 400 Rejection_reason_required))
  ∧ Skill.rejection_reason
      <$> skills (reject_skill 1 (Body.mk_with_reason (Some (py " spam ")))
                    origami_store).1 !! 1
    = Some (Some (py "spam")).
Proof.
  split.
  - apply (reject_needs_reason 1 (Body.mk_with_reason (Some (py "   ")))
             origami_store).
    vm_compute. reflexivity.
  - destruct (reject_needs_reason 1 (Body.mk_with_reason (Some (py " spam ")))
                origami_store) as [_ H].
    destruct (H ltac:(vm_compute; discriminate) origami
                ltac:(vm_compute; reflexivity)) as [_ ->].
    vm_compute. reflexivity.
Defined.

(** ** Skills: proposing and reading *)

(** C7, where the handler departs from it.  A name of 101 letters is
    proposed twice.  The first proposal stores its first 100 letters.  The
    second looks for a skill of the 101 letters, finds none, and fails at
    the commit on the unique name: the reply is the 500 of the [except]
    branch, neither a Conflict nor a new pending skill. *)
Theorem propose_long_name_twice :
  http proposed_once.2 = 201
  ∧ name_taken (strip long_name) (skills proposed_once.1) = false
  ∧ name_taken (take 100 (strip long_name)) (skills proposed_once.1) = true
  ∧ proposed_twice = (proposed_once.1, fail 500 Failed)
  ∧ failure_of proposed_twice.2 = Some Internal.
Proof. repeat split; vm_compute; reflexivity. Qed.

(** C10.  The read of one skill by its key replies NotFound (404) for a
    skill that is pending or rejected; the handler takes no identity, so
    its creator is told the same. *)
Theorem unapproved_skill_not_found (skill_id : Z) (s : db) (skill : Skill.row) :
  skills s !! skill_id = Some skill →
  Skill.status skill = pending ∨ Skill.status skill = rejected →
  get_skill_by_id skill_id s = fail 404 Skill_not_found
  ∧ failure_of (get_skill_by_id skill_id s) = Some NotFound.
Proof.
  intros Hk Hst. unfold get_skill_by_id, lookup_where. rewrite Hk.
  assert (str_eqb (Skill.status skill) approved = false) as ->; [|done].
  apply str_eqb_neq. by destruct Hst as [-> | ->].
Qed.

Lemma unapproved_skill_not_found_witness :
  get_skill_by_id 1 origami_store = fail 404 Skill_not_found
  ∧ failure_of (get_skill_by_id 1 origami_store) = Some NotFound.
Proof.
  apply (unapproved_skill_not_found 1 origami_store origami).
  - vm_compute. reflexivity.
  - right. reflexivity.
Defined.

(** ** Stored strings *)



(** * Further properties of the handlers *)

Arguments query_all : simpl never.
Arguments lookup_where : simpl never.

(** ** Trimmed and capped strings *)

Lemma strip_head s :
  strip s = [] ∨ ∃ c t, strip s = c :: t ∧ isspace c = false.
Proof.
  unfold strip. destruct (lstrip_head s) as [->|(c & t & -> & Hc)]; [by left|].
  right. exists c, (rstrip t). by rewrite rstrip_cons.
Qed.

Lemma take_strip_nonempty s (n : nat) :
  n ≠ 0%nat → strip s ≠ [] → take n (strip s) ≠ [].
Proof. intros Hn Hs. destruct n; [done|]. by destruct (strip s). Qed.

Lemma lstrip_take_strip s (n : nat) :
  lstrip (take n (strip s)) = take n (strip s).
Proof.
  destruct (strip_head s) as [->|(c & t & -> & Hc)]; [by destruct n|].
  destruct n; [done|]. cbn. by rewrite Hc.
Qed.

Lemma length_take_le (s : str) (n : nat) : (length (take n s) ≤ n)%nat.
Proof. rewrite length_take. lia. Qed.

(** ** Reads and deletion of swap requests *)

Lemma query_all_lookup {A} (p : A → bool) (m : gmap Z A) k r :
  query_all p m !! k = Some r ↔ m !! k = Some r ∧ p r = true.
Proof. unfold query_all. by rewrite map_lookup_filter_Some. Qed.

(** X1.  Deleting a swap request is reserved to its requester, whatever
    the status of the request: the requester's delete removes that request
    and nothing else, anyone else, the receiver included, is answered 403
    and the store is left as it was. *)
Theorem delete_only_by_requester (s : db) (user_id request_id : Z)
    (r : SwapRequest.row) :
  swap_requests s !! request_id = Some r →
  let out := delete_swap_request user_id request_id s in
  (user_id = SwapRequest.requester_id r →
   http out.2 = 200
   ∧ swap_requests out.1 !! request_id = None
   ∧ (∀ k, k ≠ request_id → swap_requests out.1 !! k = swap_requests s !! k)
   ∧ users out.1 = users s ∧ skills out.1 = skills s)
  ∧ (user_id ≠ SwapRequest.requester_id r →
     out = (s, fail 403 Only_requester_delete)).
Proof.
  intros Hr. cbv zeta. unfold delete_swap_request. rewrite Hr. split.
  - intros ->. rewrite Z.eqb_refl. cbn. rewrite lookup_delete_eq.
    repeat split; try done. intros k Hk. by rewrite lookup_delete_ne.
  - intros Hne. by destruct (Z.eqb_spec user_id (SwapRequest.requester_id r)).
Qed.

Lemma delete_only_by_requester_witness :
  swap_requests (delete_swap_request 1 1 settled).1 !! 1 = None
  ∧ delete_swap_request 2 1 settled = (settled, fail 403 Only_requester_delete).
Proof.
  destruct (delete_only_by_requester settled 1 1 settled_row) as [Hyes _];
    [vm_compute; reflexivity|].
  destruct (delete_only_by_requester settled 2 1 settled_row) as [_ Hno];
    [vm_compute; reflexivity|].
  split.
  - apply Hyes. reflexivity.
  - apply Hno. discriminate.
Defined.

Lemma status_filter_true status r :
  status_filter status r = true ↔
  status = None ∨ status = Some [] ∨ status = Some (SwapRequest.status r).
Proof.
  unfold status_filter. destruct status as [st|]; [|by intuition].
  destruct st as [|c st]; cbn [truthy]; [by intuition|].
  rewrite str_eqb_eq. split; [intros <-; auto|].
  intros [?|[?|[= ->]]]; done.
Qed.

Lemma my_requests_lookup s user_id status k r :
  get_my_requests user_id status s !! k = Some r ↔
  swap_requests s !! k = Some r ∧ SwapRequest.requester_id r = user_id
  ∧ (status = None ∨ status = Some [] ∨ status = Some (SwapRequest.status r)).
Proof.
  unfold get_my_requests.
  by rewrite query_all_lookup, andb_true_iff, Z.eqb_eq, status_filter_true.
Qed.

Lemma received_requests_lookup s user_id status k r :
  get_received_requests user_id status s !! k = Some r ↔
  swap_requests s !! k = Some r ∧ SwapRequest.receiver_id r = user_id
  ∧ (status = None ∨ status = Some [] ∨ status = Some (SwapRequest.status r)).
Proof.
  unfold get_received_requests.
  by rewrite query_all_lookup, andb_true_iff, Z.eqb_eq, status_filter_true.
Qed.

Lemma get_swap_request_ok s user_id k r :
  get_swap_request user_id k s = (200, Some (k, r)) ↔
  swap_requests s !! k = Some r
  ∧ (SwapRequest.requester_id r = user_id ∨ SwapRequest.receiver_id r = user_id).
Proof.
  unfold get_swap_request. destruct (swap_requests s !! k) as [q|].
  - destruct (Z.eqb_spec user_id (SwapRequest.requester_id q)),
      (Z.eqb_spec user_id (SwapRequest.receiver_id q)); cbn; split;
      try (intros [= <-]; auto); try (intros [[= <-] _]; done);
      try done; intros [[= <-] [?|?]]; done.
  - split; [done|]. by intros [? _].
Qed.

(** X2.  The listings and the single read agree on who sees a request.
    [get_my_requests] lists exactly the requests the user sent and
    [get_received_requests] exactly those the user received, narrowed to
    one status when a non-empty [status] is given (an empty one filters
    nothing); [get_swap_request] answers 200, with the request, exactly
    for the requests that are in one of the user's two unfiltered
    listings. *)
Theorem reads_of_requests (s : db) (user_id k : Z) (status : option str)
    (r : SwapRequest.row) :
  (get_my_requests user_id status s !! k = Some r ↔
   swap_requests s !! k = Some r ∧ SwapRequest.requester_id r = user_id
   ∧ (status = None ∨ status = Some [] ∨ status = Some (SwapRequest.status r)))
  ∧ (get_received_requests user_id status s !! k = Some r ↔
     swap_requests s !! k = Some r ∧ SwapRequest.receiver_id r = user_id
     ∧ (status = None ∨ status = Some [] ∨ status = Some (SwapRequest.status r)))
  ∧ (get_swap_request user_id k s = (200, Some (k, r)) ↔
     get_my_requests user_id None s !! k = Some r
     ∨ get_received_requests user_id None s !! k = Some r)
  ∧ ((get_swap_request user_id k s).1 = 200 ↔
     is_Some (get_my_requests user_id None s !! k)
     ∨ is_Some (get_received_requests user_id None s !! k)).
Proof.
  rewrite get_swap_request_ok, !my_requests_lookup, !received_requests_lookup.
  repeat split; try tauto.
  - intros H200. unfold get_swap_request in H200.
    destruct (swap_requests s !! k) as [q|] eqn:Hq; [|done].
    destruct (Z.eqb_spec user_id (SwapRequest.requester_id q)),
      (Z.eqb_spec user_id (SwapRequest.receiver_id q)); cbn in H200;
      try done; [left|left|right]; exists q;
      rewrite ?my_requests_lookup, ?received_requests_lookup; auto.
  - intros [[q Hq]|[q Hq]];
      rewrite ?my_requests_lookup, ?received_requests_lookup in Hq;
      destruct Hq as (Hk & <- & _); unfold get_swap_request;
      rewrite Hk, Z.eqb_refl; cbn; by rewrite ?orb_true_r.
Qed.

(** ** Transitions: who succeeds, and which refusal comes first *)

(** X3.  On a pending request the receiver's accept or reject and the
    requester's cancel always succeed (200): the request takes the target
    status, and an accept or reject stores the first 500 code points of a
    trimmed acceptance message that is not empty. *)
Theorem permitted_transition_succeeds (s : db) (user_id k : Z) (target : str)
    (note : option str) (r : SwapRequest.row) :
  swap_requests s !! k = Some r →
  SwapRequest.status r = pending →
  ((target = accepted ∨ target = rejected) ∧ user_id = SwapRequest.receiver_id r)
  ∨ (target = cancelled ∧ user_id = SwapRequest.requester_id r) →
  let out := update_swap_request user_id k (Body.mk_swap_update (Some target) note) s in
  http out.2 = 200
  ∧ ∃ r', swap_requests out.1 !! k = Some r'
      ∧ payload out.2 = Some (k, r')
      ∧ SwapRequest.status r' = target
      ∧ (target ≠ cancelled → strip (get_str note) ≠ [] →
         SwapRequest.acceptance_message r' = Some (take 500 (strip (get_str note)))).
Proof.
  intros Hr Hp Hwho. cbv zeta. unfold update_swap_request. rewrite Hr, Hp.
  cbn [Body.status Body.acceptanceMessage].
  assert (contains valid_statuses (Some target) = true) as ->
    by (apply contains_valid_statuses; tauto).
  assert (str_eqb pending pending = true) as -> by by apply str_eqb_eq.
  assert (SwapRequest.can_be_updated_by r user_id = true) as ->.
  { unfold SwapRequest.can_be_updated_by. apply orb_true_iff.
    destruct Hwho as [[_ ->]|[_ ->]]; [right|left]; apply Z.eqb_refl. }
  cbn [negb].
  destruct Hwho as [[Ht ->]|[-> ->]].
  - rewrite Z.eqb_refl. cbn [negb]. rewrite andb_false_r.
    assert (str_eqb target cancelled = false) as ->
      by (apply str_eqb_neq; by destruct Ht as [-> | ->]).
    cbn [andb fst snd http payload]. split; [done|]. eexists.
    cbn [swap_requests set_swap_requests]. rewrite lookup_insert_eq.
    repeat split. cbn. intros _ Hn.
    assert (contains [accepted; rejected] (Some target) = true) as ->
      by by apply contains_accept_reject.
    apply truthy_true in Hn as Hn'. rewrite Hn'. cbn [andb].
    by rewrite sanitize_string_strip.
  - replace (contains [accepted; rejected] (Some cancelled)) with false
      by (vm_compute; reflexivity).
    rewrite Z.eqb_refl. cbn [negb andb]. rewrite andb_false_r.
    cbn [fst snd http payload]. split; [done|]. eexists.
    cbn [swap_requests set_swap_requests]. rewrite lookup_insert_eq.
    repeat split. cbn. by intros [].
Qed.

Lemma permitted_transition_succeeds_witness :
  http (update_swap_request 2 1 accept asked).2 = 200
  ∧ ∃ r', swap_requests (update_swap_request 2 1 accept asked).1 !! 1 = Some r'
      ∧ SwapRequest.status r' = accepted.
Proof.
  destruct (permitted_transition_succeeds asked 2 1 accepted
              (Some (py "Sure, let's do it")) asked_row)
    as (Hok & r' & Hr' & _ & Hs & _).
  - vm_compute. reflexivity.
  - reflexivity.
  - left. split; [by left | reflexivity].
  - split; [exact Hok|]. exists r'. split; [exact Hr' | exact Hs].
Defined.

(** X4.  The refusals of a transition come in a fixed order, and none of
    them changes the store: an unknown request is NotFound (404) whatever
    else is wrong; a user who is neither requester nor receiver is
    Forbidden (403) whatever the body; a participant whose body has no
    status, or one outside accepted, rejected and cancelled, is told
    InvalidArgument (400) also when the request is already settled. *)
Theorem transition_refusals_in_order (s : db) (user_id k : Z)
    (body : Body.swap_update) :
  let out := update_swap_request user_id k body s in
  (swap_requests s !! k = None → out = (s, fail 404 Request_not_found))
  ∧ (∀ r, swap_requests s !! k = Some r →
       user_id ≠ SwapRequest.requester_id r →
       user_id ≠ SwapRequest.receiver_id r →
       out = (s, fail 403 Not_authorized_update))
  ∧ (∀ r, swap_requests s !! k = Some r →
       user_id = SwapRequest.requester_id r ∨ user_id = SwapRequest.receiver_id r →
       contains valid_statuses (Body.status body) = false →
       out = (s, fail 400 Invalid_status))
  ∧ (http out.2 ≠ 200 → out.1 = s).
Proof.
  cbv zeta. unfold update_swap_request. repeat split.
  - by intros ->.
  - intros r -> Hq Hv. unfold SwapRequest.can_be_updated_by.
    by destruct (Z.eqb_spec user_id (SwapRequest.requester_id r)),
      (Z.eqb_spec user_id (SwapRequest.receiver_id r)).
  - intros r -> Hwho Hv.
    assert (SwapRequest.can_be_updated_by r user_id = true) as ->.
    { unfold SwapRequest.can_be_updated_by. apply orb_true_iff.
      destruct Hwho as [-> | ->]; [left|right]; apply Z.eqb_refl. }
    cbn [negb]. destruct (Body.status body) as [x|]; [|done]. by rewrite Hv.
  - by repeat case_match.
Qed.

Lemma transition_refusals_in_order_witness :
  update_swap_request 2 1 (Body.mk_swap_update (Some (py "done")) None) settled
  = (settled, fail 400 Invalid_status)
  ∧ update_swap_request 3 1 (Body.mk_swap_update None None) settled
    = (settled, fail 403 Not_authorized_update)
  ∧ update_swap_request 2 7 accept settled = (settled, fail 404 Request_not_found).
Proof.
  destruct (transition_refusals_in_order settled 2 1
              (Body.mk_swap_update (Some (py "done")) None)) as (_ & _ & H400 & _).
  destruct (transition_refusals_in_order settled 3 1
              (Body.mk_swap_update None None)) as (_ & H403 & _).
  destruct (transition_refusals_in_order settled 2 7 accept) as (H404 & _).
  split; [|split].
  - apply (H400 settled_row); [vm_compute; reflexivity | by right | reflexivity].
  - apply (H403 settled_row); [vm_compute; reflexivity | discriminate..].
  - apply H404. vm_compute. reflexivity.
Defined.

(** ** What every stored swap request satisfies *)

Lemma exec_keeps_requests_ok ic s o : requests_ok s → requests_ok (exec ic s o).
Proof.
  intros Hs. pose proof (other_tables_keep_requests ic s o) as Hother.
  destruct o; try (intros k r; rewrite Hother; apply Hs); cbn [exec];
    intros k r.
  - destruct (create_swap_request user_id data s) as [s' out] eqn:E.
    apply create_swap_request_inv in E. cbv zeta in E.
    destruct E as [(-> & _)|(rid & _ & H0 & Hself & Ho & Hw & _ & _ & -> & _)];
      [apply Hs|].
    cbn [fst swap_requests set_swap_requests].
    destruct (decide (next_id (swap_requests s) = k)) as [<-|N];
      [|rewrite lookup_insert_ne by done; apply Hs].
    rewrite lookup_insert_eq. intros [= <-]. unfold request_ok. cbn.
    repeat split; try done;
      auto using take_strip_nonempty, length_take_le, lstrip_take_strip.
    eexists. split; [done|]. apply length_take_le.
  - destruct (update_swap_request user_id request_id data s) as [s' out] eqn:E.
    apply update_swap_request_inv in E. cbv zeta in E.
    destruct E as [(-> & _)|(q & target & Hq & _ & Ht & Hp & -> & _)];
      [apply Hs|].
    cbn [fst swap_requests set_swap_requests].
    destruct (decide (request_id = k)) as [<-|N];
      [|rewrite lookup_insert_ne by done; apply Hs].
    rewrite lookup_insert_eq. intros [= <-].
    destruct (Hs _ _ Hq) as (H1 & H2 & H3 & H4 & H5 & H6 & H7 & H8 & H9 & H10).
    unfold request_ok. cbn. repeat split; try done.
    destruct (contains [accepted; rejected] (Some target)) eqn:Hc;
      [destruct (truthy _) eqn:Hn|]; cbn [andb].
    + apply contains_accept_reject in Hc. apply truthy_true in Hn.
      repeat split; auto using take_strip_nonempty, length_take_le.
    + destruct (SwapRequest.acceptance_message q); [|done].
      destruct H10 as (_ & _ & [Ha|Ha]); rewrite Hp in Ha; discriminate Ha.
    + destruct (SwapRequest.acceptance_message q); [|done].
      destruct H10 as (_ & _ & [Ha|Ha]); rewrite Hp in Ha; discriminate Ha.
  - intros Hd. apply delete_step in Hd. by eapply Hs.
Qed.



(** ** Bans and the sending of requests *)

Lemma create_to_unavailable s user_id body rid :
  Body.receiverId body = Some rid → rid ≠ 0 →
  strip (get_str (Body.skillOffered body)) ≠ [] →
  strip (get_str (Body.skillWanted body)) ≠ [] →
  lookup_where (λ u, negb (User.is_banned u)) rid (users s) = None →
  create_swap_request user_id body s = (s, fail 404 Receiver_unavailable).
Proof.
  intros Hrid H0 Ho Hw Hu. unfold create_swap_request. rewrite Hrid.
  destruct (Z.eqb_spec rid 0); [done|].
  apply truthy_true in Ho as ->, Hw as ->. cbn [negb orb]. by rewrite Hu.
Qed.

(** X6.  A request to a receiver who is not registered or is banned is
    refused as NotFound (404) and nothing is stored, even when it is
    addressed to the sender.  So once [ban_user] has banned a user,
    nobody can send that user a request, until [unban_user] lifts the
    ban: after it the reply is never this 404. *)
Theorem banned_receiver_unavailable (s : db) (user_id victim : Z)
    (why : Body.with_reason) (body : Body.swap_create) :
  Body.receiverId body = Some victim → victim ≠ 0 →
  strip (get_str (Body.skillOffered body)) ≠ [] →
  strip (get_str (Body.skillWanted body)) ≠ [] →
  (users s !! victim = None →
   create_swap_request user_id body s = (s, fail 404 Receiver_unavailable))
  ∧ (http (ban_user victim why s).2 = 200 →
     create_swap_request user_id body (ban_user victim why s).1
     = ((ban_user victim why s).1, fail 404 Receiver_unavailable))
  ∧ (http (unban_user victim s).2 = 200 →
     msg (create_swap_request user_id body (unban_user victim s).1).2
     ≠ Receiver_unavailable).
Proof.
  intros Hrid H0 Ho Hw. repeat split.
  - intros Hu. apply (create_to_unavailable _ _ _ victim); try done.
    unfold lookup_where. by rewrite Hu.
  - intros Hok. apply (create_to_unavailable _ _ _ victim); try done.
    revert Hok. unfold ban_user. repeat case_match; try done. intros _.
    unfold lookup_where. cbn. by rewrite lookup_insert_eq.
  - intros Hok. revert Hok. unfold unban_user.
    destruct (users s !! victim); [|done]. intros _.
    unfold create_swap_request. rewrite Hrid.
    destruct (Z.eqb_spec victim 0); [done|].
    apply truthy_true in Ho as ->, Hw as ->. cbn [negb orb fst users set_users].
    unfold lookup_where. rewrite lookup_insert_eq. cbn.
    by repeat case_match.
Qed.

Lemma banned_receiver_unavailable_witness :
  create_swap_request 1 ask (ban_user 2 spam asked).1
  = ((ban_user 2 spam asked).1, fail 404 Receiver_unavailable)
  ∧ msg (create_swap_request 1 ask
           (unban_user 2 (ban_user 2 spam asked).1).1).2
    ≠ Receiver_unavailable.
Proof.
  split.
  - apply (banned_receiver_unavailable asked 1 2 spam ask);
      [reflexivity | lia | vm_compute; discriminate
      | vm_compute; discriminate | vm_compute; reflexivity].
  - apply (banned_receiver_unavailable (ban_user 2 spam asked).1 1 2 spam ask);
      [reflexivity | lia | vm_compute; discriminate
      | vm_compute; discriminate | vm_compute; reflexivity].
Defined.

(** X7.  Whether [create_swap_request] accepts a request, and what it
    then stores, does not depend on the account of the sender: of the
    users its checks read the receiver's row alone.  Two stores with the
    same requests and the same row for the receiver named in the body get
    the same status code and message and the same new table of requests,
    so a sender who is banned or not registered is served like any other.
    (The data of a 201 reply also render the two accounts; they are not
    part of this statement.) *)
Theorem create_decided_without_sender (s s' : db) (user_id : Z)
    (body : Body.swap_create) :
  swap_requests s = swap_requests s' →
  (∀ rid, Body.receiverId body = Some rid → users s !! rid = users s' !! rid) →
  http (create_swap_request user_id body s).2
  = http (create_swap_request user_id body s').2
  ∧ msg (create_swap_request user_id body s).2
    = msg (create_swap_request user_id body s').2
  ∧ swap_requests (create_swap_request user_id body s).1
    = swap_requests (create_swap_request user_id body s').1.
Proof.
  intros Hreq Husers. unfold create_swap_request.
  destruct (Body.receiverId body) as [rid|]; [|done].
  specialize (Husers rid eq_refl). unfold lookup_where.
  rewrite <- Hreq, <- Husers. by repeat case_match.
Qed.

Lemma create_decided_without_sender_witness :
  http (create_swap_request 1 long_ask (ban_user 1 spam asked).1).2 = 201.
Proof.
  destruct (create_decided_without_sender (ban_user 1 spam asked).1 asked 1
              long_ask) as [-> _].
  - reflexivity.
  - intros rid [= <-]. vm_compute. reflexivity.
  - vm_compute. reflexivity.
Defined.

(** ** Sending again, and the size of the table *)

Lemma create_succeeds s user_id body rid :
  Body.receiverId body = Some rid → rid ≠ 0 → user_id ≠ rid →
  strip (get_str (Body.skillOffered body)) ≠ [] →
  strip (get_str (Body.skillWanted body)) ≠ [] →
  lookup_where (λ u, negb (User.is_banned u)) rid (users s) ≠ None →
  query_first
    (pending_between user_id rid (strip (get_str (Body.skillOffered body)))
       (strip (get_str (Body.skillWanted body))))
    (swap_requests s) = None →
  http (create_swap_request user_id body s).2 = 201.
Proof.
  intros Hrid H0 Hself Ho Hw Hu Hq. unfold create_swap_request. rewrite Hrid.
  destruct (Z.eqb_spec rid 0); [done|].
  apply truthy_true in Ho as ->, Hw as ->. cbn [negb orb].
  destruct (lookup_where _ rid (users s)); [|done].
  destruct (Z.eqb_spec user_id rid); [done|]. by rewrite Hq.
Qed.

(** X8.  The guard against a second request looks at pending requests
    only.  Where pending requests are unique, once a pending request has
    been accepted, rejected or cancelled, or has been deleted, its
    requester can send the same request again: it is accepted (201),
    provided the receiver is still available. *)
Theorem resend_after_resolution (s : db) (k : Z) (r : SwapRequest.row)
    (body : Body.swap_create) :
  pending_unique s →
  swap_requests s !! k = Some r →
  SwapRequest.status r = pending →
  request_ok r →
  Body.receiverId body = Some (SwapRequest.receiver_id r) →
  strip (get_str (Body.skillOffered body)) = SwapRequest.skill_offered r →
  strip (get_str (Body.skillWanted body)) = SwapRequest.skill_wanted r →
  lookup_where (λ u, negb (User.is_banned u)) (SwapRequest.receiver_id r) (users s)
  ≠ None →
  (∀ user_id data,
     http (update_swap_request user_id k data s).2 = 200 →
     http (create_swap_request (SwapRequest.requester_id r) body
             (update_swap_request user_id k data s).1).2 = 201)
  ∧ (∀ user_id,
       http (delete_swap_request user_id k s).2 = 200 →
       http (create_swap_request (SwapRequest.requester_id r) body
               (delete_swap_request user_id k s).1).2 = 201).
Proof.
  intros Huniq Hk Hp (Hself & H0 & Ho & _ & _ & Hw & _) Hrid Hso Hsw Hu.
  assert (∀ s', users s' = users s →
            (∀ k' r', swap_requests s' !! k' = Some r' →
               SwapRequest.status r' = pending →
               k' ≠ k ∧ swap_requests s !! k' = Some r') →
            http (create_swap_request (SwapRequest.requester_id r) body s').2 = 201)
    as Hgo.
  { intros s' Hus Hrows.
    apply (create_succeeds _ _ _ (SwapRequest.receiver_id r));
      try done; try congruence.
    apply query_first_None. intros k' r' Hk'.
    destruct (pending_between _ _ _ _ r') eqn:Hb; [|done]. exfalso.
    apply pending_between_true in Hb as (? & ? & ? & ? & Hp').
    destruct (Hrows _ _ Hk' Hp') as [Hne Hold]. apply Hne.
    apply (Huniq k' k r' r); try done. unfold same_tuple. by rewrite Hso, Hsw in *. }
  split.
  - intros user_id data Hok.
    destruct (update_swap_request user_id k data s) as [s' out] eqn:E.
    apply update_swap_request_inv in E. cbv zeta in E.
    destruct E as [(_ & _ & Hne)|(q & target & Hq & _ & Ht & _ & -> & _)];
      [done|].
    apply Hgo; [done|]. intros k' r'. cbn [fst swap_requests set_swap_requests].
    destruct (decide (k = k')) as [<-|N].
    + rewrite lookup_insert_eq. intros [= <-]. cbn. intros ->.
      by destruct Ht as [?|[?|?]].
    + rewrite lookup_insert_ne by done. auto.
  - intros user_id Hok. apply Hgo.
    + revert Hok. unfold delete_swap_request. by repeat case_match.
    + intros k' r' Hk' _. revert Hok Hk'. unfold delete_swap_request.
      rewrite Hk. case_match; [done|]. cbn. intros _ Hd.
      apply lookup_delete_Some in Hd. by destruct Hd.
Qed.

Lemma resend_after_resolution_witness :
  http (create_swap_request 1 ask settled).2 = 201
  ∧ http (create_swap_request 1 ask (delete_swap_request 1 1 asked).1).2 = 201.
Proof.
  assert (pending_unique asked) as Hu.
  { apply (guard_within_cap as_integer
             [Register; Register; Register; CreateSwapRequest 1 ask]).
    repeat constructor; vm_compute; discriminate. }
  destruct (resend_after_resolution asked 1 asked_row ask Hu) as [Hup Hdel];
    try (vm_compute; reflexivity).
  - vm_compute. repeat split; try discriminate; try lia.
    eexists. split; [reflexivity|]. cbn. lia.
  - vm_compute. discriminate.
  - split.
    + apply (Hup 2 accept). vm_compute. reflexivity.
    + apply (Hdel 1). vm_compute. reflexivity.
Defined.

(** X9.  How the handlers change the table of requests.  A create that
    answers 201 adds one request under a key that was free and leaves
    every stored request as it was; any other create adds nothing.  An
    update never adds or removes a request.  A delete that answers 200
    removes one request; any other delete removes nothing. *)
Theorem requests_table_effects (s : db) (user_id k : Z) :
  (∀ body,
     let out := create_swap_request user_id body s in
     size (swap_requests out.1)
     = (size (swap_requests s) + (if decide (http out.2 = 201%Z) then 1 else 0))%nat
     ∧ (∀ k' r, swap_requests s !! k' = Some r →
          swap_requests out.1 !! k' = Some r))
  ∧ (∀ body,
       dom (swap_requests (update_swap_request user_id k body s).1)
       = dom (swap_requests s))
  ∧ (let out := delete_swap_request user_id k s in
     (size (swap_requests out.1) + (if decide (http out.2 = 200%Z) then 1 else 0))%nat
     = size (swap_requests s)
     ∧ (∀ k' r, k' ≠ k → swap_requests s !! k' = Some r →
          swap_requests out.1 !! k' = Some r)).
Proof.
  split; [|split].
  - intros body. cbv zeta. split; [|intros k' r; apply create_keeps].
    destruct (create_swap_request user_id body s) as [s' out] eqn:E.
    apply create_swap_request_inv in E. cbv zeta in E.
    destruct E as [(-> & _ & Hne)|(rid & _ & _ & _ & _ & _ & _ & _ & -> & ->)].
    + cbn [fst snd]. rewrite decide_False by done. lia.
    + cbn [fst snd swap_requests set_swap_requests http].
      rewrite map_size_insert_None by apply next_id_fresh.
      rewrite decide_True by done. lia.
  - intros body.
    destruct (update_swap_request user_id k body s) as [s' out] eqn:E.
    apply update_swap_request_inv in E. cbv zeta in E.
    destruct E as [(-> & _)|(q & target & Hq & _ & _ & _ & -> & _)]; [done|].
    cbn. rewrite dom_insert_L.
    assert (k ∈ dom (swap_requests s)) as Hin by (apply elem_of_dom; eauto).
    apply subseteq_union_1_L. by apply singleton_subseteq_l.
  - cbv zeta. unfold delete_swap_request.
    destruct (swap_requests s !! k) as [q|] eqn:Hq.
    + destruct (negb (user_id =? SwapRequest.requester_id q));
        cbn [fst snd http fail swap_requests set_swap_requests].
      * rewrite decide_False by done. split; [lia|done].
      * rewrite decide_True by done. split.
        -- rewrite <- (insert_delete_id (swap_requests s) k q) at 2 by done.
           rewrite map_size_insert_None by apply lookup_delete_eq. lia.
        -- intros k' r Hne. by rewrite lookup_delete_ne.
    + cbn [fst snd http fail]. rewrite decide_False by done. split; [lia|done].
Qed.

(** ** The guard, where it holds *)

(** X10.  While the trimmed skills of every request sent have at most 100
    code points, the pending requests of a store reached from the empty
    one are pairwise different in requester, receiver or skills.  In any
    store, a request that repeats a pending one as it is stored is
    refused as a Conflict (400) and nothing is stored. *)
Theorem guard_holds_within_cap (ic : identity → option Z) (ops : list op) :
  Forall within_cap ops →
  let s := run ic empty_db ops in
  pending_unique s
  ∧ ∀ user_id body k r,
      swap_requests s !! k = Some r →
      SwapRequest.status r = pending →
      SwapRequest.requester_id r = user_id →
      Body.receiverId body = Some (SwapRequest.receiver_id r) →
      strip (get_str (Body.skillOffered body)) = SwapRequest.skill_offered r →
      strip (get_str (Body.skillWanted body)) = SwapRequest.skill_wanted r →
      lookup_where (λ u, negb (User.is_banned u)) (SwapRequest.receiver_id r)
        (users s) ≠ None →
      create_swap_request user_id body s = (s, fail 400 Duplicate_pending).
Proof.
  intros Hcap. cbv zeta. split; [by apply guard_within_cap|].
  intros user_id body k r Hk Hp Hu Hrid Ho Hw Hav.
  assert (requests_ok (run ic empty_db ops)) as Hok.
  { clear. induction ops as [|o ops IH] using rev_ind.
    - intros k r Hk. cbn in Hk. by rewrite lookup_empty in Hk.
    - rewrite run_snoc. by apply exec_keeps_requests_ok. }
  destruct (Hok _ _ Hk) as (Hself & H0 & Hno & _ & _ & Hnw & _).
  apply (create_refuses_duplicate _ _ _ (SwapRequest.receiver_id r) k r);
    try done; try congruence.
  apply pending_between_true. by rewrite Ho, Hw.
Qed.

Lemma guard_holds_within_cap_witness :
  pending_unique asked
  ∧ create_swap_request 1 ask asked = (asked, fail 400 Duplicate_pending).
Proof.
  destruct (guard_holds_within_cap as_integer
              [Register; Register; Register; CreateSwapRequest 1 ask])
    as [Hu Hdup].
  - repeat constructor; vm_compute; discriminate.
  - split; [exact Hu|].
    apply (Hdup 1 ask 1 asked_row); try (vm_compute; reflexivity).
    vm_compute. discriminate.
Defined.

Lemma requests_table_effects_witness :
  size (swap_requests (create_swap_request 1 long_ask asked).1) = 2%nat
  ∧ dom (swap_requests settled) = dom (swap_requests asked)
  ∧ size (swap_requests (delete_swap_request 2 1 asked).1) = 1%nat.
Proof.
  destruct (requests_table_effects asked 1 1) as (Hc & _ & _).
  destruct (requests_table_effects asked 2 1) as (_ & Hu & Hd).
  split; [|split].
  - destruct (Hc long_ask) as [-> _]. vm_compute. reflexivity.
  - apply (Hu accept).
  - destruct Hd as [Hd _]. revert Hd. vm_compute. lia.
Defined.

Lemma reads_of_requests_witness :
  get_swap_request 2 1 settled = (200, Some (1, settled_row))
  ∧ get_my_requests 2 None settled !! 1 = None
  ∧ get_swap_request 3 1 settled = (403, None).
Proof.
  destruct (reads_of_requests settled 2 1 None settled_row) as (_ & Hr & Hv & _).
  split; [|split].
  - apply Hv. right. apply Hr. split; [vm_compute; reflexivity|]. split; auto.
  - vm_compute. reflexivity.
  - vm_compute. reflexivity.
Defined.

(** ** The statistics *)

Section Counting.

Context {A : Type}.
Implicit Types (m : gmap Z A) (p : A → bool) (ps : list (A → bool)).

Lemma query_count_empty p : query_count p (∅ : gmap Z A) = 0%nat.
Proof. unfold query_count, query_all. by rewrite map_filter_empty. Qed.

Lemma query_count_insert p m k x :
  m !! k = None →
  query_count p (<[k := x]> m)
  = ((if p x then 1 else 0) + query_count p m)%nat.
Proof.
  intros Hk. unfold query_count, query_all. destruct (p x) eqn:Hp.
  - rewrite map_filter_insert_True by done.
    rewrite map_size_insert_None; [done|].
    by rewrite map_lookup_filter_None_2; [|left].
  - rewrite map_filter_insert_False by (cbn; congruence).
    by rewrite (delete_id m k).
Qed.

(** When each row satisfies exactly one of the criteria [ps], the counts
    add up to the size of the table. *)
Lemma counts_add_up ps m :
  (∀ k x, m !! k = Some x →
     sum_list_with (λ p, if p x then 1 else 0)%nat ps = 1%nat) →
  size m = sum_list_with (λ p, query_count p m) ps.
Proof.
  induction m as [|k x m Hk IH] using map_ind; intros Hone.
  - rewrite map_size_empty. induction ps as [|p ps IHp]; [done|].
    cbn. by rewrite query_count_empty, <- IHp.
  - rewrite map_size_insert_None by done.
    assert (sum_list_with (λ p, query_count p (<[k:=x]> m)) ps
            = (sum_list_with (λ p, if p x then 1 else 0) ps
               + sum_list_with (λ p, query_count p m) ps)%nat) as ->.
    { clear -Hk. induction ps as [|p ps IHp]; [done|].
      cbn. rewrite query_count_insert by done. lia. }
    rewrite (Hone k x) by apply lookup_insert_eq.
    rewrite <- IH; [done|].
    intros k' x' Hk'. apply (Hone k'). rewrite lookup_insert_ne; [done|congruence].
Qed.

End Counting.

(** ** What every stored skill satisfies *)

Lemma exec_keeps_skills_ok ic s o : skills_ok s → skills_ok (exec ic s o).
Proof.
  intros Hs. pose proof (other_tables_keep_skills ic s o) as Hother.
  destruct o; try (intros k r; rewrite Hother; apply Hs); cbn [exec];
    intros k r.
  - destruct (create_skill ic user_id data s) as [s' out] eqn:E.
    apply create_skill_inv in E. cbv zeta in E.
    destruct E as [(-> & _)|(Hn & _ & _ & -> & _)]; [apply Hs|].
    cbn [fst skills set_skills].
    destruct (decide (next_id (skills s) = k)) as [<-|N];
      [|rewrite lookup_insert_ne by done; apply Hs].
    rewrite lookup_insert_eq. intros [= <-]. unfold skill_ok. cbn.
    repeat split; eauto using take_strip_nonempty, length_take_le,
      lstrip_take_strip.
  - destruct (update_skill user_id skill_id data s) as [s' out] eqn:E.
    apply update_skill_inv in E.
    destruct E as [(-> & _)|(skill & Hk & _ & _ & -> & _)]; [apply Hs|].
    cbn [fst skills set_skills].
    destruct (decide (skill_id = k)) as [<-|N];
      [|rewrite lookup_insert_ne by done; apply Hs].
    rewrite lookup_insert_eq. intros [= <-].
    destruct (Hs _ _ Hk) as (H1 & H2 & H3 & H4 & H5 & _).
    unfold skill_ok. cbn. repeat split; try done.
    + destruct (Body.name data) as [n|]; [|done].
      destruct (truthy (strip n)) eqn:Hn; [|done].
      apply truthy_true in Hn. by apply take_strip_nonempty.
    + destruct (Body.name data) as [n|]; [|done].
      destruct (truthy (strip n)); [apply length_take_le|done].
    + destruct (Body.name data) as [n|]; [|done].
      destruct (truthy (strip n)); [apply lstrip_take_strip|done].
    + destruct (Body.description data); [|done].
      eexists. split; [done|]. apply length_take_le.
    + destruct (Body.category data); [|done].
      eexists. split; [done|]. apply length_take_le.
    + by left.
  - unfold delete_skill. repeat case_match; try apply Hs. cbn.
    intros Hd. apply lookup_delete_Some in Hd as [_ Hd]. by eapply Hs.
  - unfold approve_skill. destruct (skills s !! skill_id) as [q|] eqn:Hq;
      [|apply Hs].
    cbn. destruct (decide (skill_id = k)) as [<-|N];
      [|rewrite lookup_insert_ne by done; apply Hs].
    rewrite lookup_insert_eq. intros [= <-].
    destruct (Hs _ _ Hq) as (H1 & H2 & H3 & H4 & H5 & _).
    unfold skill_ok. cbn. repeat split; try done. right. by left.
  - unfold reject_skill.
    destruct (truthy (strip (get_str (Body.reason data)))) eqn:Hn;
      [|apply Hs].
    cbn [negb]. destruct (skills s !! skill_id) as [q|] eqn:Hq; [|apply Hs].
    cbn. destruct (decide (skill_id = k)) as [<-|N];
      [|rewrite lookup_insert_ne by done; apply Hs].
    rewrite lookup_insert_eq. intros [= <-].
    destruct (Hs _ _ Hq) as (H1 & H2 & H3 & H4 & H5 & _).
    apply truthy_true in Hn.
    unfold skill_ok. cbn. rewrite sanitize_string_strip by done.
    repeat split; try done; auto using take_strip_nonempty, length_take_le.
Qed.

Lemma skills_ok_always ic ops : skills_ok (run ic empty_db ops).
Proof.
  induction ops as [|o ops IH] using rev_ind.
  - intros k r Hk. cbn in Hk. by rewrite lookup_empty in Hk.
  - rewrite run_snoc. by apply exec_keeps_skills_ok.
Qed.

(** X11.  In every store reached from the empty one, each skill has a
    name that is not empty, does not start with whitespace and has at
    most 100 code points, a description of at most 500 and a category of
    at most 50, and a status among pending, approved and rejected; it has
    a rejection reason exactly when it is rejected, and the reason is then
    not empty and of at most 500 code points. *)
Theorem stored_skills_well_formed (ic : identity → option Z) (ops : list op)
    (k : Z) (r : Skill.row) :
  skills (run ic empty_db ops) !! k = Some r →
  skill_ok r
  ∧ (Skill.status r = rejected ↔ Skill.rejection_reason r ≠ None).
Proof.
  intros Hk. pose proof (skills_ok_always ic ops k r Hk) as Hok.
  split; [done|]. destruct Hok as (_ & _ & _ & _ & _ & _ & Hr).
  destruct (Skill.rejection_reason r); [|done].
  split; [done|]. by intros _; destruct Hr.
Qed.

Example moderated_origami : skills moderated !! 1 = Some origami_rejected.
Proof. vm_compute. reflexivity. Qed.

Example moderated_chess : skills moderated !! 2 = Some chess_approved.
Proof. vm_compute. reflexivity. Qed.

Lemma stored_skills_well_formed_witness :
  skill_ok origami_rejected
  ∧ (Skill.status origami_rejected = rejected
     ↔ Skill.rejection_reason origami_rejected ≠ None).
Proof.
  apply (stored_skills_well_formed as_integer
           [Register; Register; Register;
            CreateSkill (IdInt 3)
              (Body.mk_skill (Some (py " Origami ")) None (Some (py "Crafts")));
            RejectSkill 1 (Body.mk_with_reason (Some (py "too niche")));
            CreateSkill (IdInt 2)
              (Body.mk_skill (Some (py "Chess")) None (Some (py "Games")));
            ApproveSkill 2] 1).
  vm_compute. reflexivity.
Defined.

(** X12.  The statistics add up.  In every store reached from the empty
    one the number of users is the number of active plus banned users,
    the number of skills is the number of approved, pending and rejected
    skills, and the number of swap requests is the number of pending,
    accepted, rejected and cancelled requests: no row is counted twice or
    left out. *)
Theorem statistics_add_up (ic : identity → option Z) (ops : list op) :
  let st := get_platform_stats (run ic empty_db ops) in
  total_users st = (active_users st + banned_users st)%nat
  ∧ total_skills st
    = (approved_skills st + pending_skills st + rejected_skills st)%nat
  ∧ total_requests st
    = (pending_requests st + accepted_requests st + rejected_requests st
       + cancelled_requests st)%nat.
Proof.
  cbv zeta. unfold get_platform_stats. cbn [total_users active_users
    banned_users total_skills approved_skills pending_skills rejected_skills
    total_requests pending_requests accepted_requests rejected_requests
    cancelled_requests].
  set (s := run ic empty_db ops). split; [|split].
  - rewrite (counts_add_up
               [(λ u, negb (User.is_banned u)); (λ u, User.is_banned u)]).
    + cbn. lia.
    + intros k u _. cbn. by destruct (User.is_banned u).
  - rewrite (counts_add_up
               [(λ r, str_eqb (Skill.status r) approved);
                (λ r, str_eqb (Skill.status r) pending);
                (λ r, str_eqb (Skill.status r) rejected)]).
    + cbn. lia.
    + intros k r Hk.
      destruct (skills_ok_always ic ops k r Hk)
        as (_ & _ & _ & _ & _ & Hst & _).
      cbn. by destruct Hst as [-> | [-> | ->]].
  - rewrite (counts_add_up
               [(λ r, str_eqb (SwapRequest.status r) pending);
                (λ r, str_eqb (SwapRequest.status r) accepted);
                (λ r, str_eqb (SwapRequest.status r) rejected);
                (λ r, str_eqb (SwapRequest.status r) cancelled)]).
    + cbn. lia.
    + intros k r Hk. cbn.
      by destruct (run_known ic ops k r Hk) as [-> | [-> | [-> | ->]]].
Qed.

(** ** Skills: names, moderation and visibility *)

(** X13.  In every store reached from the empty one no two skills have
    the same name, whatever their statuses.  [update_skill] does not look
    for the new name: when its creator renames a skill to a name that is
    in use, the commit fails on the unique column, the reply is the 500 of
    the [except] branch and nothing is changed. *)
Theorem skill_names_stay_unique (ic : identity → option Z) (ops : list op) :
  let s := run ic empty_db ops in
  names_unique s
  ∧ ∀ user_id k skill n description category,
      skills s !! k = Some skill →
      differs (Skill.created_by skill) user_id = false →
      strip n ≠ [] →
      take 100 (strip n) ≠ Skill.name skill →
      name_taken (take 100 (strip n)) (skills s) = true →
      update_skill user_id k (Body.mk_skill (Some n) description category) s
      = (s, fail 500 Failed).
Proof.
  cbv zeta. split; [apply names_always_unique|].
  intros user_id k skill n description category Hk Hd Hn Hne Ht.
  unfold update_skill. rewrite Hk, Hd. cbn [Body.name].
  apply truthy_true in Hn as ->. cbv zeta.
  rewrite !sanitize_string_take by done. rewrite Ht.
  apply str_eqb_neq in Hne as ->. done.
Qed.

Lemma skill_names_stay_unique_witness :
  names_unique moderated
  ∧ update_skill (IdInt 3) 1 (Body.mk_skill (Some (py "Chess ")) None None) moderated
    = (moderated, fail 500 Failed).
Proof.
  destruct (skill_names_stay_unique as_integer
              [Register; Register; Register;
               CreateSkill (IdInt 3)
                 (Body.mk_skill (Some (py " Origami ")) None (Some (py "Crafts")));
               RejectSkill 1 (Body.mk_with_reason (Some (py "too niche")));
               CreateSkill (IdInt 2)
                 (Body.mk_skill (Some (py "Chess")) None (Some (py "Games")));
               ApproveSkill 2]) as [Hu Hren].
  split; [exact Hu|].
  apply (Hren (IdInt 3) 1 origami_rejected (py "Chess ") None None);
    try (vm_compute; reflexivity); vm_compute; discriminate.
Defined.

Lemma get_skill_by_id_ok s k r :
  get_skill_by_id k s = mkreply 200 Found (Some (k, r)) ↔
  skills s !! k = Some r ∧ Skill.status r = approved.
Proof.
  unfold get_skill_by_id, lookup_where. destruct (skills s !! k) as [q|].
  - destruct (str_eqb (Skill.status q) approved) eqn:E.
    + apply str_eqb_eq in E. split; [by intros [= <-]|by intros [[= <-] _]].
    + apply str_eqb_neq in E. split; [done|by intros [[= <-] ?]].
  - split; [done|by intros [? _]].
Qed.

(** X14.  Moderation decides what the public read shows.  After
    [approve_skill] the skill is read by its key (200) and is out of the
    queue of pending skills; after a [reject_skill] with a reason it is
    neither read (404) nor in the queue; after an edit that succeeds, an
    approved skill included, it is in the queue again and no longer read
    (404). *)
Theorem moderation_decides_visibility (s : db) (k : Z) (skill : Skill.row) :
  skills s !! k = Some skill →
  (∃ r, get_skill_by_id k (approve_skill k s).1 = mkreply 200 Found (Some (k, r))
        ∧ Skill.name r = Skill.name skill
        ∧ get_pending_skills (approve_skill k s).1 !! k = None)
  ∧ (∀ why, strip (get_str (Body.reason why)) ≠ [] →
       get_skill_by_id k (reject_skill k why s).1 = fail 404 Skill_not_found
       ∧ get_pending_skills (reject_skill k why s).1 !! k = None)
  ∧ (∀ user_id body, http (update_skill user_id k body s).2 = 200 →
       get_skill_by_id k (update_skill user_id k body s).1
       = fail 404 Skill_not_found
       ∧ is_Some (get_pending_skills (update_skill user_id k body s).1 !! k)).
Proof.
  intros Hk. split; [|split].
  - unfold approve_skill. rewrite Hk. cbn [fst]. eexists. split; [|split].
    + apply get_skill_by_id_ok. cbn. by rewrite lookup_insert_eq.
    + done.
    + unfold get_pending_skills. apply eq_None_not_Some. intros [q Hq].
      apply query_all_lookup in Hq as [Hq Hp]. cbn in Hq.
      rewrite lookup_insert_eq in Hq. injection Hq as <-.
      by apply str_eqb_eq in Hp.
  - intros why Hn. unfold reject_skill. apply truthy_true in Hn as ->.
    cbn [negb]. rewrite Hk. cbn [fst]. split.
    + unfold get_skill_by_id, lookup_where. cbn. by rewrite lookup_insert_eq.
    + unfold get_pending_skills. apply eq_None_not_Some. intros [q Hq].
      apply query_all_lookup in Hq as [Hq Hp]. cbn in Hq.
      rewrite lookup_insert_eq in Hq. injection Hq as <-.
      by apply str_eqb_eq in Hp.
  - intros user_id body Hok.
    destruct (update_skill user_id k body s) as [s' out] eqn:E.
    apply update_skill_inv in E.
    destruct E as [(_ & _ & Hne)|(q & _ & _ & _ & -> & _)]; [done|].
    cbn [fst]. split.
    + unfold get_skill_by_id, lookup_where. cbn. by rewrite lookup_insert_eq.
    + eexists. unfold get_pending_skills. apply query_all_lookup. cbn.
      rewrite lookup_insert_eq. split; [done|]. by apply str_eqb_eq.
Qed.

Lemma moderation_decides_visibility_witness :
  (∃ r, get_skill_by_id 1 (approve_skill 1 moderated).1
        = mkreply 200 Found (Some (1, r)))
  ∧ get_skill_by_id 2 (reject_skill 2 spam moderated).1 = fail 404 Skill_not_found
  ∧ get_skill_by_id 2
      (update_skill (IdInt 2) 2 new_description moderated).1
    = fail 404 Skill_not_found.
Proof.
  destruct (moderation_decides_visibility moderated 1 origami_rejected)
    as ((r & Hr & _) & _); [vm_compute; reflexivity|].
  destruct (moderation_decides_visibility moderated 2 chess_approved)
    as (_ & Hrej & Hed); [vm_compute; reflexivity|].
  split; [by exists r|]. split.
  - apply (Hrej spam). vm_compute. discriminate.
  - apply (Hed (IdInt 2) new_description). vm_compute. reflexivity.
Defined.

(** X15.  [update_skill] and [delete_skill] compare the integer column
    [created_by] with the identity of the token as it is.  An identity
    that is a string, which is what app/routes/auth_routes.py issues,
    equals no integer: with it every edit and delete of a skill is
    answered 403 and changes nothing, also for the skill the same
    identity has just proposed. *)
Theorem string_identity_is_no_creator (ic : identity → option Z) (s : db)
    (who : str) :
  (∀ k skill body,
     skills s !! k = Some skill →
     update_skill (IdStr who) k body s = (s, fail 403 Only_creator_update)
     ∧ delete_skill (IdStr who) k s = (s, fail 403 Only_creator_delete))
  ∧ (∀ proposal body,
       let created := create_skill ic (IdStr who) proposal s in
       http created.2 = 201 →
       ∃ k row, payload created.2 = Some (k, row)
         ∧ update_skill (IdStr who) k body created.1
           = (created.1, fail 403 Only_creator_update)
         ∧ delete_skill (IdStr who) k created.1
           = (created.1, fail 403 Only_creator_delete)).
Proof.
  split.
  - intros k skill body Hk. unfold update_skill, delete_skill.
    by rewrite Hk, differs_string_identity.
  - intros proposal body. cbv zeta. intros Hok.
    destruct (create_skill ic (IdStr who) proposal s) as [s' out] eqn:E.
    apply create_skill_inv in E. cbv zeta in E.
    destruct E as [(_ & _ & Hne)|(_ & _ & _ & -> & ->)]; [done|].
    eexists _, _. split; [done|]. unfold update_skill, delete_skill. cbn.
    by rewrite lookup_insert_eq, differs_string_identity.
Qed.

Lemma string_identity_is_no_creator_witness :
  ∃ k row,
    payload (create_skill as_integer (IdStr (py "3")) long_skill empty_db).2
    = Some (k, row)
    ∧ update_skill (IdStr (py "3")) k new_description
        (create_skill as_integer (IdStr (py "3")) long_skill empty_db).1
      = ((create_skill as_integer (IdStr (py "3")) long_skill empty_db).1,
         fail 403 Only_creator_update).
Proof.
  destruct (string_identity_is_no_creator as_integer empty_db (py "3")) as [_ H].
  destruct (H long_skill new_description) as (k & row & Hp & Hu & _).
  - vm_compute. reflexivity.
  - by exists k, row.
Defined.

(** X16.  Deleting a skill frees its name.  While a skill is stored, a
    proposal of its name is refused as a Conflict (400); once its creator
    has deleted it, which removes that skill and no other, the same
    proposal is accepted (201). *)
Theorem delete_frees_name (ic : identity → option Z) (s : db)
    (user_id proposer : identity) (k : Z) (skill : Skill.row)
    (proposal : Body.skill) :
  names_unique s →
  skills s !! k = Some skill →
  differs (Skill.created_by skill) user_id = false →
  strip (get_str (Body.name proposal)) = Skill.name skill →
  Skill.name skill ≠ [] → (length (Skill.name skill) ≤ 100)%nat →
  let s' := (delete_skill user_id k s).1 in
  create_skill ic proposer proposal s = (s, fail 400 Skill_exists)
  ∧ skills s' = delete k (skills s)
  ∧ http (create_skill ic proposer proposal s').2 = 201.
Proof.
  intros Hu Hk Hd Hname Hne Hlen. cbv zeta.
  pose proof (propose_within_cap ic proposer proposal s) as Hbefore.
  pose proof (propose_within_cap ic proposer proposal (delete_skill user_id k s).1)
    as Hafter.
  cbv zeta in Hbefore, Hafter. rewrite Hname in Hbefore, Hafter.
  specialize (Hbefore Hne Hlen). specialize (Hafter Hne Hlen).
  assert (skills (delete_skill user_id k s).1 = delete k (skills s)) as Hs'.
  { unfold delete_skill. by rewrite Hk, Hd. }
  split; [|split; [done|]].
  - assert (name_taken (Skill.name skill) (skills s) = true) as Ht
      by (apply name_taken_true; eauto).
    by rewrite Ht in Hbefore.
  - assert (name_taken (Skill.name skill) (skills (delete_skill user_id k s).1)
            = false) as Ht.
    { apply name_taken_false. intros k' r'. rewrite Hs'.
      intros [Hne' Hk']%lookup_delete_Some Hn. apply Hne'.
      symmetry. by apply (Hu k' k r' skill). }
    rewrite Ht in Hafter. destruct Hafter as (row & _ & -> & _). done.
Qed.

Lemma delete_frees_name_witness :
  create_skill as_integer (IdInt 7) (Body.mk_skill (Some (py "Chess")) None None)
    moderated
  = (moderated, fail 400 Skill_exists)
  ∧ http (create_skill as_integer (IdInt 7)
            (Body.mk_skill (Some (py "Chess")) None None)
            (delete_skill (IdInt 2) 2 moderated).1).2 = 201.
Proof.
  destruct (delete_frees_name as_integer moderated (IdInt 2) (IdInt 7) 2
              chess_approved (Body.mk_skill (Some (py "Chess")) None None))
    as (Hb & _ & Ha); try (vm_compute; reflexivity).
  - apply (names_always_unique as_integer
             [Register; Register; Register;
              CreateSkill (IdInt 3)
                (Body.mk_skill (Some (py " Origami ")) None (Some (py "Crafts")));
              RejectSkill 1 (Body.mk_with_reason (Some (py "too niche")));
              CreateSkill (IdInt 2)
                (Body.mk_skill (Some (py "Chess")) None (Some (py "Games")));
              ApproveSkill 2]).
  - vm_compute. discriminate.
  - vm_compute. lia.
  - split; [exact Hb | exact Ha].
Defined.

(** X17.  Proposing a skill whose trimmed name has at most 100 code
    points.  An empty name is refused as InvalidArgument (400).  A name
    that a skill of any status has is refused as a Conflict (400).  Any
    other name is stored as it is, under a new key, as a pending skill
    without rejection reason, which is in the queue of pending skills and
    is not shown by the public read (404). *)
Theorem proposal_within_cap (ic : identity → option Z) (user_id : identity)
    (body : Body.skill) (s : db) :
  let name := strip (get_str (Body.name body)) in
  let out := create_skill ic user_id body s in
  (name = [] → out = (s, fail 400 Skill_name_required))
  ∧ (name ≠ [] → (length name ≤ 100)%nat →
     name_taken name (skills s) = true →
     out = (s, fail 400 Skill_exists))
  ∧ (name ≠ [] → (length name ≤ 100)%nat →
     name_taken name (skills s) = false →
     ∃ k row,
       skills s !! k = None
       ∧ out.1 = set_skills (<[k := row]> (skills s)) s
       ∧ out.2 = mkreply 201 Skill_created (Some (k, row))
       ∧ Skill.name row = name
       ∧ Skill.status row = pending
       ∧ Skill.rejection_reason row = None
       ∧ get_pending_skills out.1 !! k = Some row
       ∧ get_skill_by_id k out.1 = fail 404 Skill_not_found).
Proof.
  cbv zeta. split; [|split].
  - intros Hn. unfold create_skill. by rewrite Hn.
  - intros Hn Hlen Ht.
    pose proof (propose_within_cap ic user_id body s Hn Hlen) as H.
    cbv zeta in H. by rewrite Ht in H.
  - intros Hn Hlen Ht.
    pose proof (propose_within_cap ic user_id body s Hn Hlen) as H.
    cbv zeta in H. rewrite Ht in H.
    destruct H as (row & H1 & H2 & H3 & H4 & H5).
    exists (next_id (skills s)), row. rewrite H1.
    repeat split; try done.
    + apply next_id_fresh.
    + unfold get_pending_skills. apply query_all_lookup. cbn.
      rewrite lookup_insert_eq. split; [done|]. by apply str_eqb_eq.
    + unfold get_skill_by_id, lookup_where. cbn. rewrite lookup_insert_eq.
      by rewrite H4.
Qed.

Lemma proposal_within_cap_witness :
  create_skill as_integer (IdInt 1) (Body.mk_skill (Some (py "  ")) None None)
    moderated
  = (moderated, fail 400 Skill_name_required)
  ∧ create_skill as_integer (IdInt 1)
      (Body.mk_skill (Some (py "Origami")) None None) moderated
    = (moderated, fail 400 Skill_exists)
  ∧ ∃ k row,
      (create_skill as_integer (IdInt 1)
         (Body.mk_skill (Some (py " Go ")) None None) moderated).2
      = mkreply 201 Skill_created (Some (k, row))
      ∧ Skill.name row = py "Go".
Proof.
  destruct (proposal_within_cap as_integer (IdInt 1)
              (Body.mk_skill (Some (py "  ")) None None) moderated) as (H1 & _).
  destruct (proposal_within_cap as_integer (IdInt 1)
              (Body.mk_skill (Some (py "Origami")) None None) moderated)
    as (_ & H2 & _).
  destruct (proposal_within_cap as_integer (IdInt 1)
              (Body.mk_skill (Some (py " Go ")) None None) moderated)
    as (_ & _ & H3).
  split; [|split].
  - apply H1. vm_compute. reflexivity.
  - apply H2; [vm_compute; discriminate | vm_compute; lia | vm_compute; reflexivity].
  - destruct H3 as (k & row & _ & _ & Hout & Hname & _);
      [vm_compute; discriminate | vm_compute; lia | vm_compute; reflexivity|].
    exists k, row. split; [exact Hout|]. rewrite Hname. vm_compute. reflexivity.
Defined.

(** ** Bans *)

(** X18.  [ban_user] needs a reason: with an absent or blank one it is
    refused (400) and changes nothing; otherwise the user is marked
    banned with the first 500 code points of the trimmed reason.
    [unban_user] clears the mark and the reason, and undoes a ban
    entirely: the store after a ban and its lifting is the store after
    the lifting alone.  Neither touches the swap requests or the skills,
    so the requests of a banned user stay as they are. *)
Theorem ban_and_unban (s : db) (user_id : Z) (why : Body.with_reason)
    (u : User.row) :
  users s !! user_id = Some u →
  let reason := strip (get_str (Body.reason why)) in
  let banned := ban_user user_id why s in
  (reason = [] → banned = (s, fail 400 Ban_reason_required))
  ∧ (reason ≠ [] →
     http banned.2 = 200
     ∧ users banned.1 !! user_id = Some (User.mk true (Some (take 500 reason))))
  ∧ (unban_user user_id banned.1).1 = (unban_user user_id s).1
  ∧ users (unban_user user_id s).1 !! user_id = Some (User.mk false None)
  ∧ swap_requests banned.1 = swap_requests s
  ∧ skills banned.1 = skills s
  ∧ swap_requests (unban_user user_id s).1 = swap_requests s
  ∧ skills (unban_user user_id s).1 = skills s.
Proof.
  intros Hu. cbv zeta. unfold ban_user, unban_user. rewrite Hu.
  destruct (truthy (strip (get_str (Body.reason why)))) eqn:Hn; cbn [negb].
  - apply truthy_true in Hn. cbn. rewrite !lookup_insert_eq.
    rewrite sanitize_string_strip by done.
    repeat split; try done. unfold set_users. cbn. by rewrite insert_insert_eq.
  - apply truthy_false in Hn. cbn. rewrite Hu. cbn. rewrite lookup_insert_eq.
    repeat split; try done.
Qed.

Lemma ban_and_unban_witness :
  users (ban_user 2 spam asked).1 !! 2 = Some (User.mk true (Some (py "spam")))
  ∧ (unban_user 2 (ban_user 2 spam asked).1).1 = (unban_user 2 asked).1
  ∧ swap_requests (ban_user 1 spam asked).1 !! 1 = Some asked_row.
Proof.
  destruct (ban_and_unban asked 2 spam (User.mk false None))
    as (_ & Hb & Hround & _); [vm_compute; reflexivity|].
  destruct (ban_and_unban asked 1 spam (User.mk false None))
    as (_ & _ & _ & _ & Hreq & _); [vm_compute; reflexivity|].
  split; [|split].
  - destruct Hb as [_ ->]; [vm_compute; discriminate|]. vm_compute. reflexivity.
  - exact Hround.
  - rewrite Hreq. vm_compute. reflexivity.
Defined.

(** ** The categories *)

Lemma str_leb_total a : ∀ b, str_leb a b = true ∨ str_leb b a = true.
Proof.
  induction a as [|x a IH]; intros [|y b]; cbn; auto.
  destruct (N.ltb_spec x y), (N.ltb_spec y x), (N.eqb_spec x y),
    (N.eqb_spec y x); auto; lia.
Qed.

Lemma str_leb_trans a : ∀ b c,
  str_leb a b = true → str_leb b c = true → str_leb a c = true.
Proof.
  induction a as [|x a IH]; intros [|y b] [|z c]; cbn; try done.
  destruct (N.ltb_spec x y), (N.ltb_spec y z), (N.ltb_spec x z),
    (N.eqb_spec x y), (N.eqb_spec y z), (N.eqb_spec x z);
    try done; try lia; eauto.
Qed.

Global Instance str_le_total : Total str_le.
Proof. intros a b. apply str_leb_total. Qed.

Global Instance str_le_trans : Transitive str_le.
Proof. intros a b c. apply str_leb_trans. Qed.

(** X19.  The list of categories is sorted by code points and has no
    duplicates, and it holds exactly the categories, other than the empty
    one, of the approved skills: the category of a skill that is pending
    or rejected is listed only if an approved skill has it too. *)
Theorem categories_sorted_and_exact (s : db) :
  StronglySorted str_le (get_categories s)
  ∧ NoDup (get_categories s)
  ∧ ∀ c, c ∈ get_categories s ↔
         c ≠ [] ∧ ∃ k r, skills s !! k = Some r
                         ∧ Skill.status r = approved
                         ∧ Skill.category r = Some c.
Proof.
  unfold get_categories. cbv zeta. split; [|split].
  - apply StronglySorted_merge_sort; apply _.
  - rewrite merge_sort_Permutation. apply NoDup_ListNoDup, List.NoDup_filter, NoDup_ListNoDup, NoDup_remove_dups.
  - intros c. rewrite merge_sort_Permutation.
    rewrite list_elem_of_In, filter_In, <- list_elem_of_In.
    rewrite elem_of_remove_dups, list_elem_of_omap, truthy_true.
    split.
    + intros [([k r] & Hin & Hc) Hne]. split; [done|].
      apply elem_of_map_to_list, query_all_lookup in Hin as [Hk Hp].
      apply andb_true_iff in Hp as [Hp _]. apply str_eqb_eq in Hp.
      by exists k, r.
    + intros [Hne (k & r & Hk & Hst & Hc)]. split; [|done].
      exists (k, r). split; [|done].
      apply elem_of_map_to_list, query_all_lookup. split; [done|].
      rewrite Hc, Hst. apply andb_true_iff. split; [by apply str_eqb_eq|].
      by apply negb_true_iff, str_eqb_neq.
Qed.

Lemma categories_sorted_and_exact_witness :
  get_categories moderated = [py "Games"]
  ∧ (py "Crafts" ∈ get_categories moderated ↔
     py "Crafts" ≠ [] ∧ ∃ k r, skills moderated !! k = Some r
                               ∧ Skill.status r = approved
                               ∧ Skill.category r = Some (py "Crafts")).
Proof.
  split; [vm_compute; reflexivity|].
  apply (categories_sorted_and_exact moderated).
Defined.

(** ** The address check *)

Section Span.

Variable p : N → bool.

Lemma span_app s : s = (span p s).1 ++ (span p s).2.
Proof.
  induction s as [|c s IH]; [done|]. cbn. destruct (p c); [|done].
  cbn. by rewrite <- IH.
Qed.

Lemma span_prefix s : Forall (λ c, p c = true) (span p s).1.
Proof.
  induction s as [|c s IH]; [constructor|]. cbn.
  destruct (p c) eqn:Hc; cbn; [by constructor|constructor].
Qed.

Lemma span_stop l c r :
  Forall (λ c, p c = true) l → p c = false →
  span p (l ++ c :: r) = (l, c :: r).
Proof.
  intros Hl Hc. induction Hl as [|x l Hx Hl IH]; cbn.
  - by rewrite Hc.
  - by rewrite Hx, IH.
Qed.

End Span.

Lemma chomp_newline s : chomp (s ++ [10%N]) = s.
Proof. unfold chomp. rewrite rev_app_distr. cbn. apply rev_involutive. Qed.

Lemma chomp_other s c : c ≠ 10%N → chomp (s ++ [c]) = s ++ [c].
Proof.
  intros Hc. unfold chomp. rewrite rev_app_distr. cbn.
  by destruct (N.eqb_spec c 10).
Qed.

Lemma chomp_cases s : s = chomp s ∨ s = chomp s ++ [10%N].
Proof.
  destruct s as [|c s _] using rev_ind; [by left|].
  destruct (decide (c = 10%N)) as [->|Hc].
  - right. by rewrite chomp_newline.
  - left. by rewrite chomp_other.
Qed.

Lemma Forall_rev_iff {A} (P : A → Prop) l : Forall P (rev l) ↔ Forall P l.
Proof.
  rewrite !Forall_forall. split; intros H x Hx; apply H;
    apply list_elem_of_In; apply list_elem_of_In in Hx;
    by apply in_rev in Hx || apply in_rev.
Qed.

(** [validate_email] accepts the strings of the pattern and no others. *)
Lemma validate_email_pattern email :
  validate_email email = true ↔ email_pattern email.
Proof.
  unfold validate_email, email_pattern. split.
  - pose proof (span_app is_local email) as He.
    pose proof (span_prefix is_local email) as Hl.
    destruct (span is_local email) as [l rest]. cbn [fst snd] in He, Hl.
    destruct rest as [|c host]; [done|].
    destruct (N.eqb_spec c 64) as [->|]; [|done].
    pose proof (span_app is_alpha (rev (chomp host))) as Hh.
    pose proof (span_prefix is_alpha (rev (chomp host))) as Ht.
    destruct (span is_alpha (rev (chomp host))) as [t before].
    cbn [fst snd] in Hh, Ht.
    destruct before as [|d dom]; [done|].
    rewrite !andb_true_iff, N.eqb_eq, !truthy_true, forallb_forall.
    intros ((((-> & Hln) & Hdn) & Hd) & Hlen).
    apply (f_equal (@rev N)) in Hh. rewrite rev_involutive in Hh.
    rewrite rev_app_distr in Hh. cbn in Hh. rewrite <- app_assoc in Hh. cbn in Hh.
    exists l, (rev dom), (rev t),
      (if decide (host = chomp host) then [] else [10%N]).
    repeat split.
    + rewrite He. f_equal. f_equal.
      destruct (chomp_cases host) as [Hc|Hc].
      * rewrite decide_True by done. rewrite app_nil_r. congruence.
      * destruct (decide (host = chomp host)) as [e|_].
        -- rewrite app_nil_r. congruence.
        -- rewrite Hc at 1. rewrite Hh. by rewrite <- !app_assoc.
    + done.
    + done.
    + intros Hr. apply Hdn. apply (f_equal (@rev N)) in Hr.
      by rewrite rev_involutive in Hr.
    + apply Forall_rev_iff, Forall_forall. intros x Hx. apply Hd.
      by apply list_elem_of_In.
    + rewrite length_rev. by apply Nat.leb_le.
    + by apply Forall_rev_iff.
    + destruct (decide (host = chomp host)); auto.
  - intros (l & d & t & tail & -> & Hln & Hl & Hdn & Hd & Hlen & Ht & Htail).
    rewrite (span_stop is_local l 64) by done.
    rewrite N.eqb_refl.
    assert (chomp (d ++ 46%N :: t ++ tail) = d ++ 46%N :: t) as ->.
    { destruct Htail as [-> | ->].
      - rewrite app_nil_r.
        destruct t as [|c t _] using rev_ind; [cbn in Hlen; lia|].
        apply Forall_app in Ht as [_ Hc]. apply Forall_inv in Hc.
        replace (d ++ 46%N :: t ++ [c]) with ((d ++ 46%N :: t) ++ [c])
          by (by rewrite <- app_assoc).
        apply chomp_other. by intros ->.
      - replace (d ++ 46%N :: t ++ [10%N]) with ((d ++ 46%N :: t) ++ [10%N])
          by (by rewrite <- app_assoc).
        apply chomp_newline. }
    rewrite rev_app_distr. cbn [rev]. rewrite <- app_assoc. cbn [app].
    rewrite (span_stop is_alpha (rev t) 46) by (by apply Forall_rev_iff || done).
    rewrite N.eqb_refl, length_rev.
    rewrite !andb_true_iff, !truthy_true, forallb_forall, Nat.leb_le.
    repeat split; try done.
    + intros Hr. apply Hdn. apply (f_equal (@rev N)) in Hr.
      by rewrite rev_involutive in Hr.
    + intros x Hx. apply in_rev in Hx.
      rewrite Forall_forall in Hd. apply Hd. by apply list_elem_of_In.
Qed.

Lemma is_alpha_domain c : is_alpha c = true → is_domain c = true.
Proof. unfold is_domain. by intros ->. Qed.

Lemma is_domain_local c : is_domain c = true → is_local c = true.
Proof.
  unfold is_domain, is_local. rewrite !orb_true_iff. intuition.
Qed.

Lemma is_local_plain c :
  is_local c = true → isspace c = false ∧ c ≠ 64%N ∧ c ≠ 10%N.
Proof.
  unfold is_local, is_alpha, is_digit, isspace.
  rewrite !orb_true_iff, !andb_true_iff, !N.leb_le, !N.eqb_eq.
  intros H. repeat split; try lia.
  apply not_true_is_false.
  rewrite !orb_true_iff, !andb_true_iff, !N.leb_le, !N.eqb_eq. lia.
Qed.

Lemma chomp_letters x t tail :
  t ≠ [] → Forall (λ c, is_alpha c = true) t →
  tail = [] ∨ tail = [10%N] →
  chomp (x ++ t ++ tail) = x ++ t.
Proof.
  intros Hne Ht [-> | ->].
  - rewrite app_nil_r. destruct t as [|c t _] using rev_ind; [done|].
    apply Forall_app in Ht as [_ Hc]. apply Forall_inv in Hc.
    rewrite app_assoc. apply chomp_other.
    apply is_alpha_domain, is_domain_local, is_local_plain in Hc. tauto.
  - rewrite app_assoc. apply chomp_newline.
Qed.

(** X20.  [validate_email] accepts exactly the strings made of a local
    part of letters, digits and [._%+-], an [@], a domain of letters,
    digits, dots and hyphens, a dot and at least two letters, followed by
    nothing or by one newline: the [$] of the pattern also matches before
    a newline that ends the string. *)
Theorem validate_email_decides_pattern (email : str) :
  (validate_email email = true ↔ email_pattern email)
  ∧ (validate_email email = false ↔ ¬ email_pattern email).
Proof.
  pose proof (validate_email_pattern email) as H.
  split; [done|]. destruct (validate_email email); split; try done.
  - intros Hn. destruct Hn. by apply H.
  - intros _ Hp. by apply H in Hp.
Qed.

(** X21.  An address that [validate_email] accepts has exactly one [@]
    and at least six code points and, up to a newline at its end, no
    whitespace; with the newline at its end removed or added it is
    accepted as well. *)
Theorem accepted_addresses (email : str) :
  validate_email email = true →
  length (List.filter (N.eqb 64) email) = 1%nat
  ∧ (6 ≤ length email)%nat
  ∧ Forall (λ c, isspace c = false) (chomp email)
  ∧ validate_email (chomp email) = true
  ∧ validate_email (chomp email ++ [10%N]) = true.
Proof.
  intros Hv. apply validate_email_pattern in Hv
    as (l & d & t & tail & -> & Hln & Hl & Hdn & Hd & Hlen & Ht & Htail).
  assert (t ≠ []) as Htn by (intros ->; cbn in Hlen; lia).
  assert (∀ x, Forall (λ c, is_local c = true) x →
               List.filter (N.eqb 64) x = []) as Hnone.
  { intros x Hx. induction Hx as [|c x Hc Hx IH]; [done|]. cbn [List.filter].
    apply is_local_plain in Hc as (_ & Hc & _).
    by destruct (N.eqb_spec 64 c). }
  assert (Forall (λ c, is_local c = true) d) as Hd'
    by (eapply Forall_impl; [done|]; apply is_domain_local).
  assert (Forall (λ c, is_local c = true) t) as Ht'.
  { eapply Forall_impl; [done|]. intros c Hc.
    by apply is_domain_local, is_alpha_domain. }
  assert (chomp (l ++ 64%N :: d ++ 46%N :: t ++ tail) = l ++ 64%N :: d ++ 46%N :: t)
    as Hchomp.
  { replace (l ++ 64%N :: d ++ 46%N :: t ++ tail)
      with ((l ++ 64%N :: d ++ [46%N]) ++ t ++ tail)
      by (by rewrite <- !app_assoc; cbn; rewrite <- !app_assoc).
    rewrite chomp_letters by done.
    by rewrite <- !app_assoc; cbn; rewrite <- !app_assoc. }
  rewrite Hchomp. split; [|split; [|split; [|split]]].
  - rewrite List.filter_app. cbn [List.filter].
    rewrite N.eqb_refl, List.filter_app. cbn [List.filter].
    rewrite !Hnone by done. rewrite List.filter_app, Hnone by done.
    by destruct Htail as [-> | ->].
  - destruct l as [|a l]; [done|]. destruct d as [|b d]; [done|].
    rewrite !length_app. cbn [length]. rewrite !length_app. cbn [length].
    rewrite ?length_app. lia.
  - apply Forall_app. split.
    + eapply Forall_impl; [exact Hl|]. intros c Hc. by apply is_local_plain.
    + constructor; [done|]. apply Forall_app. split.
      * eapply Forall_impl; [exact Hd'|]. intros c Hc. by apply is_local_plain.
      * constructor; [done|].
        eapply Forall_impl; [exact Ht'|]. intros c Hc. by apply is_local_plain.
  - apply validate_email_pattern. exists l, d, t, []. rewrite app_nil_r.
    repeat split; auto.
  - apply validate_email_pattern. exists l, d, t, [10%N].
    rewrite <- !app_assoc. cbn. rewrite <- !app_assoc.
    repeat split; auto.
Qed.

Lemma accepted_addresses_witness :
  validate_email (py "a.b@c-d.io") = true
  ∧ validate_email (py "a.b@c-d.io" ++ [10%N]) = true.
Proof.
  assert (H : validate_email (py "a.b@c-d.io") = true)
    by (vm_compute; reflexivity).
  split; [exact H|].
  destruct (accepted_addresses _ H) as (_ & _ & _ & _ & H2). exact H2.
Defined.
